(** * SmartExpenseTracker: the expense store and the receipt interpreter

    A shallow embedding of [expense_tracker.py] (classes [ExpenseTracker]
    and [ReceiptOCR]) and the properties its specification states.

    Conventions of the embedding:
    - a Python [str] is a [string]; the character functions ([lower],
      [title], [strip], the classes [\d], [\s], [\w]) follow Python on the
      ASCII range, and a character above 127 is an uncased symbol that
      belongs to no class;
    - a Python [float] amount is the exact rational it denotes ([Q]);
      [float(s)] of a decimal numeral is its exact value;
    - an exception is a value of [error]; a function that may raise returns
      a [result];
    - [datetime.now()] is an argument ([today]). *)

From Stdlib Require Import Bool Arith ZArith QArith Lia List Ascii String.
From Stdlib Require Import DecimalString.
Import ListNotations.
Open Scope string_scope.
Open Scope nat_scope.

Set Implicit Arguments.

(* ================================================================== *)
(** ** Characters and strings (the Python [str] methods the code calls) *)
(* ================================================================== *)

Definition code (c : ascii) : nat := nat_of_ascii c.

Definition in_range (lo hi : nat) (c : ascii) : bool :=
  (lo <=? code c) && (code c <=? hi).

(** [\d] on ASCII text. *)
Definition is_digit : ascii -> bool := in_range 48 57.
Definition is_upper : ascii -> bool := in_range 65 90.
Definition is_lower : ascii -> bool := in_range 97 122.
Definition is_alpha (c : ascii) : bool := is_upper c || is_lower c.
(** [\w]: letters, digits and the underscore. *)
Definition is_word (c : ascii) : bool :=
  is_alpha c || is_digit c || (code c =? 95).
(** [str.isspace] and [\s]: TAB, LF, VT, FF, CR, FS, GS, RS, US, SPACE. *)
Definition is_space (c : ascii) : bool :=
  in_range 9 13 c || in_range 28 32 c.
Definition is_newline (c : ascii) : bool := code c =? 10.
(** [.] without DOTALL. *)
Definition not_newline (c : ascii) : bool := negb (is_newline c).
Definition is_char (x : ascii) (c : ascii) : bool := Ascii.eqb x c.
(** [[/-]] *)
Definition is_date_sep (c : ascii) : bool := (code c =? 47) || (code c =? 45).

Definition lower_char (c : ascii) : ascii :=
  if is_upper c then ascii_of_nat (code c + 32) else c.
Definition upper_char (c : ascii) : ascii :=
  if is_lower c then ascii_of_nat (code c - 32) else c.

(** [str.lower] *)
Fixpoint lower (s : string) : string :=
  match s with
  | EmptyString => EmptyString
  | String c s' => String (lower_char c) (lower s')
  end.

(** [str.title]: a letter that follows a cased letter is lowered, any other
    letter is raised. *)
Fixpoint title_from (previous_is_cased : bool) (s : string) : string :=
  match s with
  | EmptyString => EmptyString
  | String c s' =>
      String (if previous_is_cased then lower_char c else upper_char c)
             (title_from (is_alpha c) s')
  end.
Definition title (s : string) : string := title_from false s.

(** [str.isalpha]: non-empty and made of letters only. *)
Fixpoint all_chars (p : ascii -> bool) (s : string) : bool :=
  match s with
  | EmptyString => true
  | String c s' => p c && all_chars p s'
  end.
Definition isalpha (s : string) : bool :=
  negb (String.length s =? 0) && all_chars is_alpha s.

Fixpoint drop (n : nat) (s : string) : string :=
  match n, s with
  | S n', String _ s' => drop n' s'
  | _, _ => s
  end.

Fixpoint take (n : nat) (s : string) : string :=
  match n, s with
  | S n', String c s' => String c (take n' s')
  | _, _ => EmptyString
  end.

(** [str.lstrip], [str.rstrip] and [str.strip] with no argument. *)
Fixpoint lstrip (s : string) : string :=
  match s with
  | String c s' => if is_space c then lstrip s' else s
  | EmptyString => EmptyString
  end.
Fixpoint rstrip (s : string) : string :=
  match s with
  | EmptyString => EmptyString
  | String c s' =>
      match rstrip s' with
      | EmptyString => if is_space c then EmptyString else String c EmptyString
      | r => String c r
      end
  end.
Definition strip (s : string) : string := rstrip (lstrip s).

(** [text.split('\n')]: always at least one piece. *)
Fixpoint split_lines (s : string) : list string :=
  match s with
  | EmptyString => [EmptyString]
  | String c s' =>
      if is_newline c then EmptyString :: split_lines s'
      else match split_lines s' with
           | l :: ls => String c l :: ls
           | [] => [String c EmptyString]
           end
  end.

(** [s.startswith(k)] *)
Fixpoint starts_with (k s : string) : bool :=
  match k, s with
  | EmptyString, _ => true
  | String a k', String b s' => Ascii.eqb a b && starts_with k' s'
  | String _ _, EmptyString => false
  end.

(** [k in s] for strings: [k] occurs in [s] as a substring. *)
Fixpoint contains (k s : string) : bool :=
  starts_with k s ||
  match s with
  | EmptyString => false
  | String _ s' => contains k s'
  end.

(** [x in xs] for a list of strings. *)
Definition mem (x : string) (xs : list string) : bool :=
  existsb (String.eqb x) xs.

(* ================================================================== *)
(** ** Regular expressions (the fragment of [re] the patterns use)     *)
(* ================================================================== *)

(** Every quantifier in the source's patterns is applied to a single
    character class, so repetition is [Rep cls lo hi]: [\d+] is
    [Rep is_digit 1 None], [\s*] is [Rep is_space 0 None], [:?] is
    [Rep (is_char ":") 0 (Some 1)], [\d{1,2}] is [Rep is_digit 1 (Some 2)]. *)
Inductive regex : Type :=
| Eps : regex
| Chr : (ascii -> bool) -> regex
| Cat : regex -> regex -> regex
| Alt : regex -> regex -> regex
| Rep : (ascii -> bool) -> nat -> option nat -> regex
| Grp : regex -> regex
| Eol : regex.

(** Length of the longest run of [p] at the head of [s], capped by [hi]. *)
Fixpoint span (p : ascii -> bool) (hi : option nat) (s : string) : nat :=
  match hi, s with
  | Some 0, _ => 0
  | _, EmptyString => 0
  | _, String c s' =>
      if p c then S (span p (option_map pred hi) s') else 0
  end.

(** Greedy choice with backtracking: try [lo + d] repetitions, then one
    fewer, down to [lo]. *)
Fixpoint backoff {A} (try : nat -> option A) (lo d : nat) : option A :=
  match try (lo + d)%nat with
  | Some x => Some x
  | None => match d with
            | 0 => None
            | S d' => backoff try lo d'
            end
  end.

(** The backtracking matcher, in continuation-passing style: [k] receives
    the unread input and the groups closed so far. Alternation tries its
    left branch first; a repetition takes as many characters as it can and
    gives them back one at a time. *)
Fixpoint run {A} (r : regex) (s : string) (gs : list string)
         (k : string -> list string -> option A) : option A :=
  match r with
  | Eps => k s gs
  | Chr p =>
      match s with
      | String c s' => if p c then k s' gs else None
      | EmptyString => None
      end
  | Cat r1 r2 => run r1 s gs (fun s' gs' => run r2 s' gs' k)
  | Alt r1 r2 =>
      match run r1 s gs k with
      | Some x => Some x
      | None => run r2 s gs k
      end
  | Rep p lo hi =>
      let n := span p hi s in
      if (lo <=? n)%nat then backoff (fun j => k (drop j s) gs) lo (n - lo)
      else None
  | Grp r1 =>
      run r1 s gs
          (fun s' gs' =>
             k s' (gs' ++ [take (String.length s - String.length s') s])%list)
  | Eol =>
      match s with
      | EmptyString => k s gs
      | String c _ => if is_newline c then k s gs else None
      end
  end.

(** A match of [r] at the head of [s]: the unread input and the groups. *)
Definition match_at (r : regex) (s : string) : option (string * list string) :=
  run r s [] (fun s' gs => Some (s', gs)).

(** [re.match(r, s)] as a truth value. *)
Definition re_match (r : regex) (s : string) : bool :=
  match match_at r s with Some _ => true | None => false end.

(** [re.search(r, s)] as a truth value. *)
Fixpoint re_search (r : regex) (s : string) : bool :=
  match match_at r s with
  | Some _ => true
  | None => match s with
            | EmptyString => false
            | String _ s' => re_search r s'
            end
  end.

(** [re.findall(r, s)]: the groups of the successive non-overlapping
    matches, scanning from the left. [skip] counts the characters of the
    last match still to be stepped over. *)
Fixpoint findall_from (r : regex) (s : string) (skip : nat) {struct s}
  : list (list string) :=
  match skip with
  | S n =>
      match s with
      | EmptyString => []
      | String _ s' => findall_from r s' n
      end
  | 0 =>
      match match_at r s with
      | Some (rest, gs) =>
          gs :: match s with
                | EmptyString => []
                | String _ s' =>
                    findall_from r s' (String.length s - String.length rest - 1)
                end
      | None =>
          match s with
          | EmptyString => []
          | String _ s' => findall_from r s' 0
          end
      end
  end.
Definition findall (r : regex) (s : string) : list (list string) :=
  findall_from r s 0.

(** Pattern builders. *)
Fixpoint lit (s : string) : regex :=
  match s with
  | EmptyString => Eps
  | String c s' => Cat (Chr (is_char c)) (lit s')
  end.
(** A literal under [re.IGNORECASE]. *)
Fixpoint lit_ci (s : string) : regex :=
  match s with
  | EmptyString => Eps
  | String c s' =>
      Cat (Chr (fun x => Ascii.eqb (lower_char x) (lower_char c))) (lit_ci s')
  end.
Fixpoint cat (rs : list regex) : regex :=
  match rs with
  | [] => Eps
  | r :: rs' => Cat r (cat rs')
  end.
Fixpoint alt (r : regex) (rs : list regex) : regex :=
  match rs with
  | [] => r
  | r' :: rs' => Alt r (alt r' rs')
  end.
Definition digit : regex := Chr is_digit.
Definition digits (lo : nat) (hi : option nat) : regex := Rep is_digit lo hi.
Definition spaces (lo : nat) : regex := Rep is_space lo None.
Definition opt (c : ascii) : regex := Rep (is_char c) 0 (Some 1).


(* ================================================================== *)
(** ** Numbers: [int(s)], [float(s)] and zero-padded printing          *)
(* ================================================================== *)

Definition digit_val (c : ascii) : Z := Z.of_nat (code c - 48).

(** The digits of a Python integer literal: decimal digits, with single
    underscores allowed between two digits. *)
Fixpoint int_digits (acc : Z) (seen : bool) (s : string) : option Z :=
  match s with
  | EmptyString => if seen then Some acc else None
  | String c s' =>
      if is_digit c then int_digits (acc * 10 + digit_val c)%Z true s'
      else if (code c =? 95) && seen then
        match s' with
        | String d _ => if is_digit d then int_digits acc false s' else None
        | EmptyString => None
        end
      else None
  end.

(** [int(s)]: surrounding white space, an optional sign, the digits. A
    string it rejects raises ValueError ([None]). *)
Definition int (s : string) : option Z :=
  match strip s with
  | String "+" r => int_digits 0 false r
  | String "-" r => option_map Z.opp (int_digits 0 false r)
  | r => int_digits 0 false r
  end.

(** The fraction digits of a decimal numeral: [num / den] so far. *)
Fixpoint frac_digits (num : Z) (den : positive) (s : string) : option Q :=
  match s with
  | EmptyString => Some (num # den)
  | String c s' =>
      if is_digit c then frac_digits (num * 10 + digit_val c)%Z (den * 10)%positive s'
      else None
  end.

(** The unsigned numerals [ddd], [ddd.], [ddd.ddd] and [.ddd]. *)
Fixpoint decimal (num : Z) (seen : bool) (s : string) : option Q :=
  match s with
  | EmptyString => if seen then Some (num # 1) else None
  | String c s' =>
      if is_digit c then decimal (num * 10 + digit_val c)%Z true s'
      else if is_char "." c then
        match s' with
        | EmptyString => if seen then Some (num # 1) else None
        | _ => frac_digits num 1 s'
        end
      else None
  end.

(** [float(s)] on the plain decimal numerals, with surrounding white space
    and an optional sign: the exact value. Python also reads numerals with
    an exponent or with underscores, and [inf] and [nan]; they are outside
    this model, which answers [None] (ValueError) for them as for every
    string that is no number. The matches of parse_amount are plain
    decimal numerals. *)
Definition float (s : string) : option Q :=
  match strip s with
  | String "+" r => decimal 0 false r
  | String "-" r => option_map Qopp (decimal 0 false r)
  | r => decimal 0 false r
  end.

Definition Qlt_bool (a b : Q) : bool := negb (Qle_bool b a).

(** [n] in decimal, left-padded with zeros to [width] characters. *)
Fixpoint zeros (n : nat) : string :=
  match n with
  | 0 => EmptyString
  | S n' => String "0" (zeros n')
  end.
Definition zpad (width : nat) (n : Z) : string :=
  let d := NilZero.string_of_uint (N.to_uint (Z.to_N n)) in
  zeros (width - String.length d) ++ d.

(* ================================================================== *)
(** ** Calendar: [datetime], [strptime] and [strftime]                 *)
(* ================================================================== *)

Record Datetime : Type := mkDatetime { dt_year : Z; dt_month : Z; dt_day : Z }.

Definition is_leap (y : Z) : bool :=
  ((y mod 4 =? 0) && (negb (y mod 100 =? 0) || (y mod 400 =? 0)))%Z.

Definition days_in_month (y m : Z) : Z :=
  if (m =? 2)%Z then (if is_leap y then 29 else 28)%Z
  else if ((m =? 4) || (m =? 6) || (m =? 9) || (m =? 11))%Z then 30%Z
  else 31%Z.

(** [datetime(y, m, d)]: ValueError ([None]) outside the calendar. *)
Definition datetime (y m d : Z) : option Datetime :=
  if ((1 <=? y) && (y <=? 9999) && (1 <=? m) && (m <=? 12)
      && (1 <=? d) && (d <=? days_in_month y m))%Z
  then Some (mkDatetime y m d) else None.

(** [a <= b] on datetimes. *)
Definition dt_leb (a b : Datetime) : bool :=
  ((dt_year a <? dt_year b)
   || ((dt_year a =? dt_year b)
       && ((dt_month a <? dt_month b)
           || ((dt_month a =? dt_month b) && (dt_day a <=? dt_day b)))))%Z.

(** The regular expressions [_strptime] builds for the directives. *)
Definition re_Y : regex := Grp (cat [digit; digit; digit; digit]).
Definition re_m : regex :=
  Grp (alt (Cat (Chr (is_char "1")) (Chr (in_range 48 50)))
           [Cat (Chr (is_char "0")) (Chr (in_range 49 57));
            Chr (in_range 49 57)]).
Definition re_d : regex :=
  Grp (alt (Cat (Chr (is_char "3")) (Chr (in_range 48 49)))
           [Cat (Chr (in_range 49 50)) digit;
            Cat (Chr (is_char "0")) (Chr (in_range 49 57));
            Chr (in_range 49 57);
            Cat (Chr (is_char " ")) (Chr (in_range 49 57))]).

Definition month_names : list string :=
  ["january"; "february"; "march"; "april"; "may"; "june"; "july";
   "august"; "september"; "october"; "november"; "december"].
(** The alternation of [%B]: longest names first, matched ignoring case. *)
Definition re_B : regex :=
  Grp (alt (lit_ci "september")
           (map lit_ci ["february"; "november"; "december"; "january";
                        "october"; "august"; "march"; "april"; "june";
                        "july"; "may"])).

Fixpoint index_of (x : string) (xs : list string) (i : Z) : option Z :=
  match xs with
  | [] => None
  | y :: ys => if String.eqb x y then Some i else index_of x ys (i + 1)%Z
  end.

(** [datetime.strptime(s, "%Y-%m-%d")]: the format's expression must
    match at the start and leave nothing unread, and the fields must name
    a day of the calendar. *)
Definition strptime_ymd (s : string) : option Datetime :=
  match match_at (cat [re_Y; lit "-"; re_m; lit "-"; re_d]) s with
  | Some (EmptyString, [y; m; d]) =>
      match int y, int m, int d with
      | Some y', Some m', Some d' => datetime y' m' d'
      | _, _, _ => None
      end
  | _ => None
  end.

(** [datetime.strptime(s, "%d %B %Y")] *)
Definition strptime_dBY (s : string) : option Datetime :=
  match match_at (cat [re_d; spaces 1; re_B; spaces 1; re_Y]) s with
  | Some (EmptyString, [d; b; y]) =>
      match int y, index_of (lower b) month_names 1%Z, int d with
      | Some y', Some m', Some d' => datetime y' m' d'
      | _, _, _ => None
      end
  | _ => None
  end.

(** [dt.strftime("%Y-%m-%d")] *)
Definition strftime (dt : Datetime) : string :=
  zpad 4 (dt_year dt) ++ "-" ++ zpad 2 (dt_month dt) ++ "-" ++ zpad 2 (dt_day dt).


(* ================================================================== *)
(** ** class ExpenseTracker                                            *)
(* ================================================================== *)

Definition EXPENSE_CATEGORIES : list string :=
  ["Food & Dining"; "Transportation"; "Shopping"; "Entertainment";
   "Bills & Utilities"; "Healthcare"; "Travel"; "Education";
   "Business"; "Personal Care"; "Groceries"; "Gas"; "Other"].

(** An expense record: the dict with the keys date, amount, category,
    vendor and description. *)
Record Expense : Type := mkExpense {
  date : string;
  amount : Q;
  category : string;
  vendor : string;
  description : string
}.

(** The ValueErrors the tracker raises, by message: "Amount cannot be
    negative", "Invalid category. ...", and "<what> must be in YYYY-MM-DD
    format" for [what] one of Date, start_date and end_date. *)
Inductive error : Type :=
| InvalidAmount : error
| InvalidCategory : error
| InvalidDate : string -> error.

Inductive result (A : Type) : Type :=
| Ok : A -> result A
| Err : error -> result A.
Arguments Ok {A} _.
Arguments Err {A} _.

(** A row of the tabular file: five cells of text, under the header
    date,amount,category,vendor,description. *)
Record csv_row : Type := mkRow {
  c_date : string;
  c_amount : string;
  c_category : string;
  c_vendor : string;
  c_description : string
}.

(** What the file at [data_file] holds: the rows [csv.DictWriter] wrote,
    the array of objects [json.dump] wrote, or anything else. The text
    layer of the csv and json modules is not modelled. *)
Inductive file : Type :=
| CsvFile : list csv_row -> file
| JsonFile : list Expense -> file
| Unreadable : file.

(** The tracker object together with the file it owns: [disk] is [None]
    when the file does not exist, [writes] counts the times the file was
    opened for writing. *)
Record tracker : Type := mkTracker {
  disk : option file;
  writes : nat;
  storage_format : string;
  expenses : list Expense
}.

Definition with_expenses (t : tracker) (l : list Expense) : tracker :=
  mkTracker (disk t) (writes t) (storage_format t) l.
Definition write_file (t : tracker) (f : file) : tracker :=
  mkTracker (Some f) (S (writes t)) (storage_format t) (expenses t).

Section Store.
(** [str(amount)], the cell [csv.DictWriter] writes for a float: the
    shortest numeral that reads back as the same float. *)
Variable str_amount : Q -> string.

Definition row_of (e : Expense) : csv_row :=
  mkRow (date e) (str_amount (amount e)) (category e) (vendor e) (description e).

(** _load_from_csv: [None] when [float(row['amount'])] raises. *)
Fixpoint load_from_csv (rows : list csv_row) : option (list Expense) :=
  match rows with
  | [] => Some []
  | row :: rest =>
      match float (c_amount row) with
      | None => None
      | Some a =>
          match load_from_csv rest with
          | None => None
          | Some l =>
              Some (mkExpense (c_date row) a (c_category row)
                              (c_vendor row) (c_description row) :: l)
          end
      end
  end.

(** _load_expenses: a missing file gives the empty list, and so does any
    exception while reading (a file of the other format, an unreadable
    amount, an unsupported storage format). *)
Definition load_expenses (t : tracker) : tracker :=
  match disk t with
  | None => with_expenses t []
  | Some f =>
      if String.eqb (storage_format t) "csv" then
        match f with
        | CsvFile rows =>
            match load_from_csv rows with
            | Some l => with_expenses t l
            | None => with_expenses t []
            end
        | _ => with_expenses t []
        end
      else if String.eqb (storage_format t) "json" then
        match f with
        | JsonFile doc => with_expenses t doc
        | _ => with_expenses t []
        end
      else with_expenses t []
  end.

(** __init__ *)
Definition ExpenseTracker (data_file : option file) (storage_format : string)
  : tracker :=
  load_expenses (mkTracker data_file 0 (lower storage_format) []).

(** _save_to_csv: nothing is written for an empty list. *)
Definition save_to_csv (t : tracker) : tracker :=
  match expenses t with
  | [] => t
  | _ => write_file t (CsvFile (map row_of (expenses t)))
  end.

(** _save_to_json *)
Definition save_to_json (t : tracker) : tracker :=
  write_file t (JsonFile (expenses t)).

(** _save_expenses *)
Definition save_expenses (t : tracker) : tracker :=
  if String.eqb (storage_format t) "csv" then save_to_csv t
  else if String.eqb (storage_format t) "json" then save_to_json t
  else t.

(** add_expense: [today] is [datetime.now().strftime("%Y-%m-%d")]. The
    result comes with the tracker after the call. *)
Definition add_expense (today : string) (t : tracker) (amount : Q)
           (category vendor description : string) (date : option string)
  : result Expense * tracker :=
  if Qlt_bool amount 0 then (Err InvalidAmount, t)
  else if negb (mem category EXPENSE_CATEGORIES) then (Err InvalidCategory, t)
  else
    let checked :=
      match date with
      | None => Some today
      | Some d =>
          match strptime_ymd d with
          | Some _ => Some d
          | None => None
          end
      end in
    match checked with
    | None => (Err (InvalidDate "Date"), t)
    | Some d =>
        let expense := mkExpense d amount category vendor description in
        let t' := with_expenses t (expenses t ++ [expense])%list in
        (Ok expense, save_expenses t')
    end.
End Store.

(** [if x:] on an optional string: [None] and the empty string are false. *)
Definition truthy (x : option string) : option string :=
  match x with
  | Some EmptyString => None
  | _ => x
  end.

(** The list comprehension [[exp for exp in l if keep(strptime(exp['date']))]];
    [None] when [strptime] raises on a record. *)
Fixpoint filter_by_date (keep : Datetime -> bool) (l : list Expense)
  : option (list Expense) :=
  match l with
  | [] => Some []
  | exp :: rest =>
      match strptime_ymd (date exp) with
      | None => None
      | Some dt =>
          match filter_by_date keep rest with
          | None => None
          | Some r => Some (if keep dt then exp :: r else r)
          end
      end
  end.

(** [exp['category'] == c] *)
Definition in_category (c : string) (exp : Expense) : bool :=
  String.eqb (category exp) c.

(** view_expenses *)
Definition view_expenses (t : tracker) (category start_date end_date : option string)
  : result (list Expense) :=
  let filtered_expenses := expenses t in
  let by_category :=
    match truthy category with
    | Some c =>
        if negb (mem c EXPENSE_CATEGORIES) then Err InvalidCategory
        else Ok (filter (in_category c) filtered_expenses)
    | None => Ok filtered_expenses
    end in
  match by_category with
  | Err e => Err e
  | Ok filtered_expenses =>
      let by_start :=
        match truthy start_date with
        | Some s =>
            match strptime_ymd s with
            | None => Err (InvalidDate "start_date")
            | Some start_dt =>
                match filter_by_date (fun dt => dt_leb start_dt dt) filtered_expenses with
                | None => Err (InvalidDate "start_date")
                | Some l => Ok l
                end
            end
        | None => Ok filtered_expenses
        end in
      match by_start with
      | Err e => Err e
      | Ok filtered_expenses =>
          match truthy end_date with
          | Some s =>
              match strptime_ymd s with
              | None => Err (InvalidDate "end_date")
              | Some end_dt =>
                  match filter_by_date (fun dt => dt_leb dt end_dt) filtered_expenses with
                  | None => Err (InvalidDate "end_date")
                  | Some l => Ok l
                  end
              end
          | None => Ok filtered_expenses
          end
      end
  end.

(* ================================================================== *)
(** ** class ReceiptOCR                                                *)
(* ================================================================== *)

(** _load_vendor_categories: the dict, in insertion order. *)
Definition vendor_categories : list (string * string) :=
  [("mcdonalds", "Food & Dining"); ("burger king", "Food & Dining");
   ("starbucks", "Food & Dining"); ("subway", "Food & Dining");
   ("pizza", "Food & Dining"); ("restaurant", "Food & Dining");
   ("cafe", "Food & Dining"); ("diner", "Food & Dining");
   ("walmart", "Groceries"); ("target", "Groceries");
   ("kroger", "Groceries"); ("safeway", "Groceries");
   ("grocery", "Groceries"); ("supermarket", "Groceries");
   ("market", "Groceries");
   ("shell", "Gas"); ("exxon", "Gas"); ("chevron", "Gas"); ("bp", "Gas");
   ("gas station", "Gas"); ("fuel", "Gas");
   ("uber", "Transportation"); ("lyft", "Transportation");
   ("taxi", "Transportation"); ("bus", "Transportation");
   ("metro", "Transportation"); ("transit", "Transportation");
   ("amazon", "Shopping"); ("ebay", "Shopping"); ("best buy", "Shopping");
   ("costco", "Shopping"); ("mall", "Shopping"); ("store", "Shopping");
   ("pharmacy", "Healthcare"); ("cvs", "Healthcare");
   ("walgreens", "Healthcare"); ("clinic", "Healthcare");
   ("hospital", "Healthcare"); ("doctor", "Healthcare");
   ("other", "Other")].

(** The capturing group of a number: one or more digits, an optional dot, any
    number of digits. *)
Definition re_number : regex :=
  Grp (cat [digits 1 None; opt "."; digits 0 None]).

(** A label, optional white space, an optional colon, optional white space,
    an optional dollar sign, the number. *)
Definition labelled (word : string) : regex :=
  cat [lit word; spaces 0; opt ":"; spaces 0; opt "$"; re_number].

(** The patterns of parse_amount, compiled with re.MULTILINE. *)
Definition amount_patterns : list regex :=
  [labelled "total";
   labelled "amount";
   labelled "subtotal";
   cat [lit "$"; re_number];
   cat [Grp (cat [digits 1 None; lit "."; digits 2 (Some 2)]); spaces 0; Eol]].

(** What [re.findall] returns for a pattern with one group. *)
Definition group1 (gs : list string) : string := hd EmptyString gs.

Definition reasonable (a : Q) : bool :=
  Qle_bool (1 # 100) a && Qle_bool a (10000 # 1).

(** The body of the inner loop: [amounts.append(amount)] when the match
    is a number in the reasonable range. *)
Definition collect (amounts : list Q) (m : string) : list Q :=
  match float m with
  | Some a => if reasonable a then (amounts ++ [a])%list else amounts
  | None => amounts
  end.

(** [max(a :: rest)]: the first of the largest elements. *)
Definition py_max (a : Q) (rest : list Q) : Q :=
  fold_left (fun best x => if Qlt_bool best x then x else best) rest a.

(** parse_amount *)
Definition parse_amount (text : string) : option Q :=
  let text_lower := lower text in
  let amounts :=
    fold_left
      (fun amounts pattern =>
         fold_left collect (map group1 (findall pattern text_lower)) amounts)
      amount_patterns [] in
  match amounts with
  | [] => None
  | a :: rest => Some (py_max a rest)
  end.

(** The patterns of parse_date. *)
Definition date_patterns : list regex :=
  [cat [Grp (digits 1 (Some 2)); Chr is_date_sep; Grp (digits 1 (Some 2));
        Chr is_date_sep; Grp (digits 2 (Some 4))];
   cat [Grp (digits 4 (Some 4)); Chr is_date_sep; Grp (digits 1 (Some 2));
        Chr is_date_sep; Grp (digits 1 (Some 2))];
   cat [Grp (Rep is_word 3 (Some 9)); spaces 1; Grp (digits 1 (Some 2));
        opt ","; spaces 1; Grp (digits 2 (Some 4))]].

(** [datetime(int(y), int(m), int(d))] *)
Definition datetime_of (y m d : string) : option Datetime :=
  match int y, int m, int d with
  | Some y', Some m', Some d' => datetime y' m' d'
  | _, _, _ => None
  end.

(** The body of the [try] in parse_date: the date a match stands for, or
    [None] when a ValueError is raised. *)
Definition date_of_match (m : list string) : option Datetime :=
  match m with
  | [m0; m1; m2] =>
      if isalpha m0 then
        strptime_dBY (m1 ++ " " ++ m0 ++ " " ++ m2)
      else if String.length m2 =? 4 then
        if String.length m0 =? 4 then datetime_of m0 m1 m2
        else datetime_of m2 m0 m1
      else
        match int m2 with
        | None => None
        | Some year =>
            let year := if (year <? 50)%Z then (year + 2000)%Z else (year + 1900)%Z in
            match int m0, int m1 with
            | Some mo, Some d => datetime year mo d
            | _, _ => None
            end
        end
  | _ => None
  end.

(** The first match, in order, that gives a date. *)
Fixpoint first_date (conv : list string -> option Datetime)
         (matches : list (list string)) : option Datetime :=
  match matches with
  | [] => None
  | m :: rest =>
      match conv m with
      | Some dt => Some dt
      | None => first_date conv rest
      end
  end.

Fixpoint scan_dates (conv : list string -> option Datetime)
         (patterns : list regex) (text : string) : option Datetime :=
  match patterns with
  | [] => None
  | pattern :: rest =>
      match first_date conv (findall pattern text) with
      | Some dt => Some dt
      | None => scan_dates conv rest text
      end
  end.

(** parse_date: [today] is [datetime.now().strftime("%Y-%m-%d")]. *)
Definition parse_date (today : string) (text : string) : string :=
  match scan_dates date_of_match date_patterns text with
  | Some date_obj => strftime date_obj
  | None => today
  end.

(** [^\d+.*], used with [re.match]. *)
Definition re_leading_digits : regex :=
  cat [digits 1 None; Rep not_newline 0 None].
(** [\d{3}-\d{3}-\d{4}|\d{10}], used with [re.search]. *)
Definition re_phone_dashed : regex :=
  cat [digits 3 (Some 3); lit "-"; digits 3 (Some 3); lit "-"; digits 4 (Some 4)].
Definition re_phone_plain : regex := digits 10 (Some 10).
Definition re_phone : regex := Alt re_phone_dashed re_phone_plain.

(** The loop of parse_vendor over the lines it is given. *)
Fixpoint vendor_in (lines : list string) : option string :=
  match lines with
  | [] => None
  | line :: rest =>
      let line := strip line in
      if (2 <? String.length line) && negb (re_match re_leading_digits line) then
        if negb (re_search re_phone line) then Some (title line)
        else vendor_in rest
      else vendor_in rest
  end.

(** parse_vendor *)
Definition parse_vendor (text : string) : string :=
  let lines := split_lines text in
  match vendor_in (firstn 5 lines) with
  | Some v => v
  | None => "Unknown Vendor"
  end.

(** The loop of suggest_category over the items of the table. *)
Fixpoint first_category (items : list (string * string)) (vendor_lower : string)
  : option string :=
  match items with
  | [] => None
  | (keyword, category) :: rest =>
      if contains keyword vendor_lower then Some category
      else first_category rest vendor_lower
  end.

(** suggest_category *)
Definition suggest_category (vendor : string) : string :=
  let vendor_lower := lower vendor in
  match first_category vendor_categories vendor_lower with
  | Some category => category
  | None => "Other"
  end.


(* ================================================================== *)
(** ** Basic facts                                                     *)
(* ================================================================== *)

Lemma mem_In (x : string) (xs : list string) : mem x xs = true <-> In x xs.
Proof.
  unfold mem. rewrite existsb_exists. split.
  - intros [y [Hy Heq]]. apply String.eqb_eq in Heq. now subst.
  - intros H. exists x. split; [assumption | apply String.eqb_refl].
Qed.

Lemma mem_not_In (x : string) (xs : list string) : mem x xs = false <-> ~ In x xs.
Proof.
  rewrite <- mem_In. destruct (mem x xs); split; congruence.
Qed.

Lemma Qlt_bool_iff (a b : Q) : Qlt_bool a b = true <-> (a < b)%Q.
Proof.
  unfold Qlt_bool. rewrite negb_true_iff. split.
  - intros H. apply Qnot_le_lt. intros Hle.
    apply Qle_bool_iff in Hle. congruence.
  - intros H. destruct (Qle_bool b a) eqn:E; [| reflexivity].
    apply Qle_bool_iff in E. exfalso. exact (Qlt_not_le _ _ H E).
Qed.

Lemma Qlt_bool_false_iff (a b : Q) : Qlt_bool a b = false <-> (b <= a)%Q.
Proof.
  unfold Qlt_bool. rewrite negb_false_iff. apply Qle_bool_iff.
Qed.

Section StoreFacts.
Variable str_amount : Q -> string.

Lemma expenses_save_expenses (t : tracker) :
  expenses (save_expenses str_amount t) = expenses t.
Proof.
  unfold save_expenses, save_to_csv, save_to_json.
  destruct (String.eqb (storage_format t) "csv").
  - destruct (expenses t) eqn:E; simpl; auto.
  - destruct (String.eqb (storage_format t) "json"); reflexivity.
Qed.


(** The three outcomes of add_expense's validation, as one equation. *)
Lemma add_expense_cases today t amt cat vend desc (dt : option string) :
  add_expense str_amount today t amt cat vend desc dt =
    if Qlt_bool amt 0 then (Err InvalidAmount, t)
    else if negb (mem cat EXPENSE_CATEGORIES) then (Err InvalidCategory, t)
    else match dt with
         | None =>
             (Ok (mkExpense today amt cat vend desc),
              save_expenses str_amount
                (with_expenses t (expenses t ++ [mkExpense today amt cat vend desc])%list))
         | Some d =>
             match strptime_ymd d with
             | Some _ =>
                 (Ok (mkExpense d amt cat vend desc),
                  save_expenses str_amount
                    (with_expenses t (expenses t ++ [mkExpense d amt cat vend desc])%list))
             | None => (Err (InvalidDate "Date"), t)
             end
         end.
Proof.
  unfold add_expense.
  destruct (Qlt_bool amt 0); [reflexivity |].
  destruct (negb (mem cat EXPENSE_CATEGORIES)); [reflexivity |].
  destruct dt as [d |]; [| reflexivity].
  destruct (strptime_ymd d); reflexivity.
Qed.
End StoreFacts.

(* ================================================================== *)
(** ** add_expense                                                     *)
(* ================================================================== *)

(** C1. For every amount >= 0, every category of EXPENSE_CATEGORIES and
    every date string that [strptime] accepts in the format %Y-%m-%d,
    add_expense succeeds; the record it returns has the date, amount,
    category, vendor and description it was given; and the store's list
    afterwards is the list before with that record appended at the end. *)
Theorem add_expense_valid
        (str_amount : Q -> string) (today : string) (t : tracker)
        (amt : Q) (cat vend desc dstr : string) :
  (0 <= amt)%Q ->
  In cat EXPENSE_CATEGORIES ->
  strptime_ymd dstr <> None ->
  exists r t',
    add_expense str_amount today t amt cat vend desc (Some dstr) = (Ok r, t')
    /\ date r = dstr /\ amount r = amt /\ category r = cat
    /\ vendor r = vend /\ description r = desc
    /\ expenses t' = (expenses t ++ [r])%list.
Proof.
  intros Hamt Hcat Hdate.
  rewrite add_expense_cases.
  apply Qlt_bool_false_iff in Hamt. rewrite Hamt.
  apply mem_In in Hcat. rewrite Hcat. simpl.
  destruct (strptime_ymd dstr) as [d |]; [| congruence].
  eexists. eexists. split; [reflexivity |].
  rewrite expenses_save_expenses. simpl. repeat split; reflexivity.
Qed.

(** A csv-backed tracker on a missing file, used in the examples. *)
Definition fresh_csv : tracker :=
  ExpenseTracker None "csv".

Lemma add_expense_valid_witness :
  exists r t',
    add_expense (fun _ => "25.5") "2024-06-01" fresh_csv (255 # 10)
                "Food & Dining" "Starbucks" "Morning coffee" (Some "2024-01-15")
    = (Ok r, t')
    /\ date r = "2024-01-15" /\ amount r = (255 # 10)
    /\ category r = "Food & Dining" /\ vendor r = "Starbucks"
    /\ description r = "Morning coffee"
    /\ expenses t' = (expenses fresh_csv ++ [r])%list.
Proof.
  apply (@add_expense_valid (fun _ => "25.5") "2024-06-01" fresh_csv (255 # 10)
           "Food & Dining" "Starbucks" "Morning coffee" "2024-01-15").
  - unfold Qle. simpl. lia.
  - simpl. tauto.
  - vm_compute. discriminate.
Defined.

(** C2. add_expense raises exactly when the amount is negative, or the
    category is not in EXPENSE_CATEGORIES, or a date string was supplied
    and [strptime] rejects it. A negative amount gives InvalidAmount; a
    foreign category (the amount being fine) gives InvalidCategory; a
    rejected date (amount and category being fine) gives InvalidDate.
    When the date is omitted no date error occurs and the record is dated
    today. *)
Theorem add_expense_fails_iff
        (str_amount : Q -> string) (today : string) (t : tracker)
        (amt : Q) (cat vend desc : string) (dt : option string) :
  let outcome := fst (add_expense str_amount today t amt cat vend desc dt) in
  ((exists e, outcome = Err e) <->
     (amt < 0)%Q \/ ~ In cat EXPENSE_CATEGORIES
     \/ (exists d, dt = Some d /\ strptime_ymd d = None))
  /\ ((amt < 0)%Q -> outcome = Err InvalidAmount)
  /\ ((0 <= amt)%Q -> ~ In cat EXPENSE_CATEGORIES -> outcome = Err InvalidCategory)
  /\ ((0 <= amt)%Q -> In cat EXPENSE_CATEGORIES ->
      forall d, dt = Some d -> strptime_ymd d = None ->
                outcome = Err (InvalidDate "Date"))
  /\ (dt = None -> forall what, outcome <> Err (InvalidDate what))
  /\ (dt = None -> (0 <= amt)%Q -> In cat EXPENSE_CATEGORIES ->
      outcome = Ok (mkExpense today amt cat vend desc)).
Proof.
  intros outcome. subst outcome. rewrite add_expense_cases.
  destruct (Qlt_bool amt 0) eqn:Ea.
  - apply Qlt_bool_iff in Ea. simpl.
    repeat split; try (intros; exfalso; eapply Qlt_not_le; eassumption).
    + intros _. now left.
    + intros _. now exists InvalidAmount.
    + intros; discriminate.
  - apply Qlt_bool_false_iff in Ea.
    assert (Hnot : ~ (amt < 0)%Q) by (intro H; exact (Qlt_not_le _ _ H Ea)).
    destruct (mem cat EXPENSE_CATEGORIES) eqn:Ec; simpl.
    + apply mem_In in Ec.
      destruct dt as [d |].
      * destruct (strptime_ymd d) as [p |] eqn:Ed; simpl.
        -- repeat split; try (intros; contradiction); try (intros; discriminate).
           ++ intros [e He]. discriminate.
           ++ intros [H | [H | [d' [H1 H2]]]]; try contradiction.
              inversion H1; subst. congruence.
           ++ intros _ _ d' H1 H2. inversion H1; subst. congruence.
        -- repeat split; try (intros; contradiction); try (intros; discriminate).
           ++ intros _. right. right. exists d. auto.
           ++ intros _. now exists (InvalidDate "Date").
      * simpl. repeat split; try (intros; contradiction); try (intros; discriminate).
        -- intros [e He]. discriminate.
        -- intros [H | [H | [d' [H1 H2]]]]; try contradiction. discriminate.
    + apply mem_not_In in Ec. simpl.
      repeat split; try (intros; contradiction); try (intros; discriminate).
      * intros _. right. now left.
      * intros _. now exists InvalidCategory.
Qed.

(** C10. When add_expense raises, the tracker after the call is the
    tracker before it: the list of expenses is unchanged, the file is
    unchanged and it was not opened for writing. *)
Theorem add_expense_atomic
        (str_amount : Q -> string) (today : string) (t : tracker)
        (amt : Q) (cat vend desc : string) (dt : option string) (e : error) :
  fst (add_expense str_amount today t amt cat vend desc dt) = Err e ->
  snd (add_expense str_amount today t amt cat vend desc dt) = t
  /\ expenses (snd (add_expense str_amount today t amt cat vend desc dt)) = expenses t
  /\ disk (snd (add_expense str_amount today t amt cat vend desc dt)) = disk t
  /\ writes (snd (add_expense str_amount today t amt cat vend desc dt)) = writes t.
Proof.
  rewrite add_expense_cases.
  destruct (Qlt_bool amt 0); [simpl; auto |].
  destruct (negb (mem cat EXPENSE_CATEGORIES)); [simpl; auto |].
  destruct dt as [d |].
  - destruct (strptime_ymd d); simpl; [discriminate | auto].
  - simpl. discriminate.
Qed.

Lemma add_expense_atomic_witness :
  snd (add_expense (fun _ => "25.5") "2024-06-01" fresh_csv (-1 # 1)
                   "Food & Dining" "" "" None) = fresh_csv
  /\ expenses (snd (add_expense (fun _ => "25.5") "2024-06-01" fresh_csv (-1 # 1)
                                "Food & Dining" "" "" None)) = expenses fresh_csv
  /\ disk (snd (add_expense (fun _ => "25.5") "2024-06-01" fresh_csv (-1 # 1)
                            "Food & Dining" "" "" None)) = disk fresh_csv
  /\ writes (snd (add_expense (fun _ => "25.5") "2024-06-01" fresh_csv (-1 # 1)
                              "Food & Dining" "" "" None)) = writes fresh_csv.
Proof.
  apply (@add_expense_atomic (fun _ => "25.5") "2024-06-01" fresh_csv (-1 # 1)
           "Food & Dining" "" "" None InvalidAmount).
  reflexivity.
Defined.

(* ================================================================== *)
(** ** view_expenses                                                   *)
(* ================================================================== *)

(** A record whose date [strptime] accepts. *)
Definition well_dated (exp : Expense) : Prop := strptime_ymd (date exp) <> None.

(** A category filter that is applied and names no category. *)
Definition bad_category (category : option string) : bool :=
  match truthy category with
  | Some c => negb (mem c EXPENSE_CATEGORIES)
  | None => false
  end.

(** A date bound that is applied and is not a date. *)
Definition bad_bound (bound : option string) : bool :=
  match truthy bound with
  | Some s => match strptime_ymd s with Some _ => false | None => true end
  | None => false
  end.

(** The datetime of a bound that is applied. *)
Definition bound_of (bound : option string) : option Datetime :=
  match truthy bound with
  | Some s => strptime_ymd s
  | None => None
  end.

Definition on_or_after (lo : option Datetime) (exp : Expense) : bool :=
  match lo with
  | None => true
  | Some l => match strptime_ymd (date exp) with
              | Some dt => dt_leb l dt
              | None => false
              end
  end.

Definition on_or_before (hi : option Datetime) (exp : Expense) : bool :=
  match hi with
  | None => true
  | Some h => match strptime_ymd (date exp) with
              | Some dt => dt_leb dt h
              | None => false
              end
  end.

Definition of_category (category : option string) (exp : Expense) : bool :=
  match truthy category with
  | Some c => in_category c exp
  | None => true
  end.

(** The conjunction of the filters that are applied. *)
Definition satisfies (category start_date end_date : option string)
           (exp : Expense) : bool :=
  of_category category exp
  && on_or_after (bound_of start_date) exp
  && on_or_before (bound_of end_date) exp.

Lemma filter_by_date_well_dated (keep : Datetime -> bool) (l : list Expense) :
  Forall well_dated l ->
  filter_by_date keep l =
    Some (filter (fun exp => match strptime_ymd (date exp) with
                             | Some dt => keep dt
                             | None => false
                             end) l).
Proof.
  induction 1 as [| exp l Hexp Hl IH]; simpl; [reflexivity |].
  unfold well_dated in Hexp.
  destruct (strptime_ymd (date exp)) as [dt |]; [| congruence].
  rewrite IH. reflexivity.
Qed.

Lemma Forall_filter_keeps {A} (P : A -> Prop) (f : A -> bool) (l : list A) :
  Forall P l -> Forall P (filter f l).
Proof.
  induction 1; simpl; [constructor |].
  destruct (f x); [constructor |]; assumption.
Qed.

Lemma filter_filter {A} (f g : A -> bool) (l : list A) :
  filter g (filter f l) = filter (fun x => f x && g x) l.
Proof.
  induction l as [| x l IH]; simpl; [reflexivity |].
  destruct (f x); simpl; [destruct (g x) |]; rewrite IH; reflexivity.
Qed.

Lemma filter_true {A} (l : list A) : filter (fun _ => true) l = l.
Proof. induction l; simpl; congruence. Qed.

Lemma dt_leb_refl (d : Datetime) : dt_leb d d = true.
Proof.
  unfold dt_leb. rewrite !Z.eqb_refl, Z.leb_refl, !orb_true_r. reflexivity.
Qed.

(** Two filters of one list that keep the same records. *)
Ltac same_filter :=
  f_equal; apply filter_ext; intros ?;
  unfold on_or_after, on_or_before;
  rewrite ?andb_true_r, ?andb_assoc; reflexivity.

(** The first sentence of the claim on view_expenses fails on the code:
    the empty string is a category outside EXPENSE_CATEGORIES, and with it
    view_expenses raises nothing and returns every record. *)
Lemma view_expenses_empty_category :
  ~ In "" EXPENSE_CATEGORIES
  /\ view_expenses
       (mkTracker None 0 "csv" [mkExpense "2024-01-15" (5 # 1) "Gas" "Shell" ""])
       (Some "") None None
     = Ok [mkExpense "2024-01-15" (5 # 1) "Gas" "Shell" ""].
Proof.
  split; [| reflexivity].
  apply mem_not_In. reflexivity.
Qed.

(** C7, as amended. A filter that is absent or the empty string is not
    applied. For every store whose records are well dated, view_expenses
    raises InvalidCategory when an applied category is not in
    EXPENSE_CATEGORIES; otherwise InvalidDate when an applied start_date
    is rejected by [strptime], otherwise InvalidDate when an applied
    end_date is; otherwise it returns exactly the records that satisfy
    every applied filter, in the order of the store. The bounds are
    inclusive. *)
Theorem view_expenses_spec
        (t : tracker) (cat start_date end_date : option string) :
  Forall well_dated (expenses t) ->
  view_expenses t cat start_date end_date =
    (if bad_category cat then Err InvalidCategory
     else if bad_bound start_date then Err (InvalidDate "start_date")
     else if bad_bound end_date then Err (InvalidDate "end_date")
     else Ok (filter (satisfies cat start_date end_date) (expenses t)))
  /\ (forall d exp, strptime_ymd (date exp) = Some d ->
                    on_or_after (Some d) exp = true
                    /\ on_or_before (Some d) exp = true).
Proof.
  intros Hdates. split.
  - unfold view_expenses, bad_category, bad_bound, satisfies, of_category, bound_of.
    destruct (truthy cat) as [c |].
    + destruct (mem c EXPENSE_CATEGORIES); simpl; [| reflexivity].
      assert (Hc : Forall well_dated (filter (in_category c) (expenses t)))
        by (apply Forall_filter_keeps; assumption).
      destruct (truthy start_date) as [s |].
      * destruct (strptime_ymd s) as [lo |]; [| reflexivity].
        rewrite (filter_by_date_well_dated _ Hc).
        destruct (truthy end_date) as [e |].
        -- destruct (strptime_ymd e) as [hi |]; [| reflexivity].
           rewrite filter_by_date_well_dated
             by (apply Forall_filter_keeps; assumption).
           rewrite !filter_filter. same_filter.
        -- rewrite !filter_filter. same_filter.
      * destruct (truthy end_date) as [e |].
        -- destruct (strptime_ymd e) as [hi |]; [| reflexivity].
           rewrite (filter_by_date_well_dated _ Hc).
           rewrite !filter_filter. same_filter.
        -- same_filter.
    + simpl.
      destruct (truthy start_date) as [s |].
      * destruct (strptime_ymd s) as [lo |]; [| reflexivity].
        rewrite (filter_by_date_well_dated _ Hdates).
        destruct (truthy end_date) as [e |].
        -- destruct (strptime_ymd e) as [hi |]; [| reflexivity].
           rewrite filter_by_date_well_dated
             by (apply Forall_filter_keeps; assumption).
           rewrite !filter_filter. same_filter.
        -- same_filter.
      * destruct (truthy end_date) as [e |].
        -- destruct (strptime_ymd e) as [hi |]; [| reflexivity].
           rewrite (filter_by_date_well_dated _ Hdates). same_filter.
        -- rewrite <- (filter_true (expenses t)) at 1. same_filter.
  - intros d exp Hd. unfold on_or_after, on_or_before.
    rewrite Hd, dt_leb_refl. auto.
Qed.

Definition january_store : tracker :=
  mkTracker None 0 "csv"
    [mkExpense "2023-12-31" (4 # 1) "Gas" "Shell" "";
     mkExpense "2024-01-01" (5 # 1) "Gas" "Shell" "";
     mkExpense "2024-01-20" (9 # 1) "Groceries" "Walmart" "";
     mkExpense "2024-01-31" (7 # 1) "Gas" "Exxon" "";
     mkExpense "2024-02-01" (3 # 1) "Gas" "Shell" ""].

Lemma view_expenses_spec_witness :
  view_expenses january_store (Some "Gas") (Some "2024-01-01") (Some "2024-01-31") =
    (if bad_category (Some "Gas") then Err InvalidCategory
     else if bad_bound (Some "2024-01-01") then Err (InvalidDate "start_date")
     else if bad_bound (Some "2024-01-31") then Err (InvalidDate "end_date")
     else Ok (filter (satisfies (Some "Gas") (Some "2024-01-01") (Some "2024-01-31"))
                     (expenses january_store)))
  /\ (forall d exp, strptime_ymd (date exp) = Some d ->
                    on_or_after (Some d) exp = true
                    /\ on_or_before (Some d) exp = true).
Proof.
  apply (@view_expenses_spec january_store (Some "Gas") (Some "2024-01-01")
           (Some "2024-01-31")).
  unfold january_store, well_dated. simpl.
  repeat constructor; vm_compute; discriminate.
Defined.

(* ================================================================== *)
(** ** Persistence: save, then load                                    *)
(* ================================================================== *)








(** What the csv format does with the empty list: nothing is written, and
    loading gives what the file held before. *)
Lemma save_csv_empty_is_noop (str_amount : Q -> string) (t : tracker) :
  storage_format t = "csv" -> expenses t = [] ->
  save_expenses str_amount t = t.
Proof.
  intros Hcsv He. unfold save_expenses, save_to_csv. rewrite Hcsv, He.
  reflexivity.
Qed.


(* ================================================================== *)
(** ** suggest_category                                                *)
(* ================================================================== *)

(** [k] is a substring of [s]. *)
Definition occurs (k s : string) : Prop := exists a b, s = a ++ k ++ b.

Lemma starts_with_app (k s : string) :
  starts_with k s = true <-> exists b, s = k ++ b.
Proof.
  revert s. induction k as [| c k IH]; intros s; simpl.
  - split; [intros _; now exists s | reflexivity].
  - destruct s as [| c' s].
    + split; [discriminate | intros [b Hb]; discriminate].
    + destruct (Ascii.eqb c c') eqn:E; simpl.
      * apply Ascii.eqb_eq in E. subst c'. rewrite IH. split.
        -- intros [b Hb]. exists b. now subst.
        -- intros [b Hb]. exists b. now inversion Hb.
      * split; [discriminate |].
        intros [b Hb]. inversion Hb; subst.
        rewrite Ascii.eqb_refl in E. discriminate.
Qed.

Lemma contains_occurs (k s : string) : contains k s = true <-> occurs k s.
Proof.
  unfold occurs. induction s as [| c s IH].
  - simpl. rewrite orb_false_r, starts_with_app. split.
    + intros [b Hb]. exists EmptyString, b. exact Hb.
    + intros [a [b Hab]]. destruct a as [| x a]; [| discriminate].
      exists b. exact Hab.
  - simpl. rewrite orb_true_iff, starts_with_app, IH. split.
    + intros [[b Hb] | [a [b Hab]]].
      * exists EmptyString, b. exact Hb.
      * exists (String c a), b. simpl. now rewrite Hab.
    + intros [a [b Hab]]. destruct a as [| x a].
      * left. exists b. exact Hab.
      * right. exists a, b. now inversion Hab.
Qed.

Lemma first_category_spec (items : list (string * string)) (v : string) :
  match first_category items v with
  | Some c =>
      exists pre k post,
        items = (pre ++ (k, c) :: post)%list /\ occurs k v
        /\ forall k' c', In (k', c') pre -> ~ occurs k' v
  | None => forall k c, In (k, c) items -> ~ occurs k v
  end.
Proof.
  induction items as [| [k c] items IH]; simpl.
  - intros k c [].
  - destruct (contains k v) eqn:E.
    + exists [], k, items. split; [reflexivity |]. split.
      * now apply contains_occurs.
      * intros k' c' [].
    + assert (Hk : ~ occurs k v)
        by (rewrite <- contains_occurs; congruence).
      destruct (first_category items v) as [c0 |].
      * destruct IH as [pre [k0 [post [Hitems [Hocc Hpre]]]]].
        exists ((k, c) :: pre), k0, post. split; [now rewrite Hitems |].
        split; [assumption |].
        intros k' c' [Heq | Hin]; [inversion Heq; now subst | eauto].
      * intros k' c' [Heq | Hin]; [inversion Heq; now subst | eauto].
Qed.

Lemma first_category_in (cats : list string) (items : list (string * string))
      (v c : string) :
  forallb (fun kc => mem (snd kc) cats) items = true ->
  first_category items v = Some c -> In c cats.
Proof.
  induction items as [| [k c0] items IH]; simpl; [discriminate |].
  intros H. apply andb_prop in H. destruct H as [Hc0 Hrest].
  destruct (contains k v).
  - intros Heq. inversion Heq; subst. now apply mem_In.
  - now apply IH.
Qed.

(** The example of the claim on suggest_category fails on the code:
    "store" is a keyword of the table, so "Unknown Store" is Shopping. *)
Lemma suggest_category_unknown_store :
  suggest_category "Unknown Store" = "Shopping"
  /\ suggest_category "Unknown Store" <> "Other".
Proof.
  split; [reflexivity | discriminate].
Qed.

(** C4, as amended. For every vendor string, either suggest_category
    returns the category of the first keyword of the table, in its
    order, that occurs in the lowered vendor, or no keyword occurs in
    it and it returns "Other". "Shell Gas Station" gives "Gas";
    "Unknown Store" gives "Shopping" (it contains the keyword "store");
    "Unknown Vendor" gives "Other". *)
Theorem suggest_category_first_keyword (vendor_name : string) :
  ((exists pre k post,
       vendor_categories = (pre ++ (k, suggest_category vendor_name) :: post)%list
       /\ occurs k (lower vendor_name)
       /\ forall k' c', In (k', c') pre -> ~ occurs k' (lower vendor_name))
   \/ (suggest_category vendor_name = "Other"
       /\ forall k c, In (k, c) vendor_categories -> ~ occurs k (lower vendor_name)))
  /\ suggest_category "Shell Gas Station" = "Gas"
  /\ suggest_category "Unknown Store" = "Shopping"
  /\ suggest_category "Unknown Vendor" = "Other".
Proof.
  split; [| repeat split; reflexivity].
  unfold suggest_category.
  pose proof (first_category_spec vendor_categories (lower vendor_name)) as H.
  destruct (first_category vendor_categories (lower vendor_name)) as [c |].
  - left. exact H.
  - right. split; [reflexivity | exact H].
Qed.

(** C9. For every vendor string, what suggest_category returns is one of
    EXPENSE_CATEGORIES, so add_expense never rejects it as a category. *)
Theorem suggest_category_valid (vendor_name : string) :
  In (suggest_category vendor_name) EXPENSE_CATEGORIES
  /\ mem (suggest_category vendor_name) EXPENSE_CATEGORIES = true
  /\ forall str_amount today t amt vend desc dt,
       fst (add_expense str_amount today t amt (suggest_category vendor_name)
                        vend desc dt) <> Err InvalidCategory.
Proof.
  assert (Hin : In (suggest_category vendor_name) EXPENSE_CATEGORIES).
  { unfold suggest_category.
    destruct (first_category vendor_categories (lower vendor_name)) as [c |] eqn:E.
    - apply (first_category_in EXPENSE_CATEGORIES vendor_categories _ (eq_refl _) E).
    - apply mem_In. reflexivity. }
  split; [exact Hin |].
  assert (Hmem : mem (suggest_category vendor_name) EXPENSE_CATEGORIES = true)
    by (apply mem_In; exact Hin).
  split; [exact Hmem |].
  intros str_amount today t amt vend desc dt.
  rewrite add_expense_cases, Hmem. simpl.
  destruct (Qlt_bool amt 0); [discriminate |].
  destruct dt as [d |]; [destruct (strptime_ymd d) |]; discriminate.
Qed.

(* ================================================================== *)
(** ** parse_amount                                                    *)
(* ================================================================== *)










(* ================================================================== *)
(** ** Patterns of fixed shape                                         *)
(* ================================================================== *)

(** [s] starts with characters that fit the classes of [shape], one by
    one. *)
Fixpoint prefix_fits (shape : list (ascii -> bool)) (s : string) : bool :=
  match shape, s with
  | [], _ => true
  | p :: shape', String c s' => p c && prefix_fits shape' s'
  | _ :: _, EmptyString => false
  end.

(** The shape of an expression that matches strings of one length only. *)
Fixpoint shape_of (r : regex) : option (list (ascii -> bool)) :=
  match r with
  | Eps => Some []
  | Chr p => Some [p]
  | Cat r1 r2 =>
      match shape_of r1, shape_of r2 with
      | Some a, Some b => Some (a ++ b)%list
      | _, _ => None
      end
  | Rep p lo (Some hi) => if lo =? hi then Some (repeat p lo) else None
  | _ => None
  end.

Lemma drop_drop (n m : nat) (s : string) : drop m (drop n s) = drop (n + m) s.
Proof.
  revert s. induction n as [| n IH]; intros s; simpl.
  - reflexivity.
  - destruct s as [| c s]; simpl; [destruct m; reflexivity | apply IH].
Qed.

Lemma prefix_fits_app (a b : list (ascii -> bool)) (s : string) :
  prefix_fits (a ++ b) s = prefix_fits a s && prefix_fits b (drop (List.length a) s).
Proof.
  revert s. induction a as [| p a IH]; intros s; simpl.
  - reflexivity.
  - destruct s as [| c s]; simpl; [reflexivity |].
    rewrite IH. apply andb_assoc.
Qed.

Lemma span_full (p : ascii -> bool) (n : nat) (s : string) :
  (n <=? span p (Some n) s) = prefix_fits (repeat p n) s.
Proof.
  revert s. induction n as [| n IH]; intros s.
  - destruct s; reflexivity.
  - destruct s as [| c s]; simpl; [reflexivity |].
    destruct (p c); simpl; [apply IH | reflexivity].
Qed.

Lemma span_bound (p : ascii -> bool) (n : nat) (s : string) :
  span p (Some n) s <= n.
Proof.
  revert s. induction n as [| n IH]; intros s.
  - destruct s; simpl; lia.
  - destruct s as [| c s]; simpl; [lia |].
    destruct (p c); simpl; [specialize (IH s) |]; lia.
Qed.

(** An expression of fixed shape either fails or reads exactly the
    characters of its shape, whatever follows it. *)
Lemma run_shape (r : regex) :
  forall sh, shape_of r = Some sh ->
  forall (A : Type) (s : string) (gs : list string)
         (k : string -> list string -> option A),
    run r s gs k =
      if prefix_fits sh s then k (drop (List.length sh) s) gs else None.
Proof.
  induction r as [| p | r1 IH1 r2 IH2 | r1 IH1 r2 IH2 | p lo hi | r IH |];
    intros sh Hsh A s gs k; simpl in Hsh; try discriminate.
  - inversion Hsh; subst. reflexivity.
  - inversion Hsh; subst. simpl.
    destruct s as [| c s]; [reflexivity |].
    rewrite andb_true_r. reflexivity.
  - destruct (shape_of r1) as [a |]; [| discriminate].
    destruct (shape_of r2) as [b |]; [| discriminate].
    inversion Hsh; subst. simpl.
    rewrite (IH1 a eq_refl), prefix_fits_app, length_app.
    destruct (prefix_fits a s); simpl; [| reflexivity].
    rewrite (IH2 b eq_refl), drop_drop. reflexivity.
  - destruct hi as [hi |]; [| discriminate].
    destruct (lo =? hi) eqn:E; [| discriminate].
    apply Nat.eqb_eq in E. subst hi. inversion Hsh; subst.
    simpl. rewrite repeat_length, span_full.
    destruct (prefix_fits (repeat p lo) s) eqn:F; [| reflexivity].
    assert (Hn : span p (Some lo) s - lo = 0)
      by (pose proof (span_bound p lo s); lia).
    rewrite Hn. simpl. rewrite Nat.add_0_r.
    destruct (k (drop lo s) gs); reflexivity.
Qed.

Lemma backoff_top {A} (try : nat -> option A) (lo d : nat) (x : A) :
  try (lo + d) = Some x -> backoff try lo d = Some x.
Proof.
  intros H. destruct d; simpl; rewrite H; reflexivity.
Qed.

Lemma re_search_step (r : regex) (s : string) :
  re_search r s =
    re_match r s || match s with
                    | EmptyString => false
                    | String _ s' => re_search r s'
                    end.
Proof.
  unfold re_match. destruct s; simpl; destruct (match_at r _); reflexivity.
Qed.

(* ================================================================== *)
(** ** parse_vendor                                                    *)
(* ================================================================== *)

Definition starts_with_digit (line : string) : bool :=
  match line with
  | String c _ => is_digit c
  | EmptyString => false
  end.

Definition dash : ascii -> bool := is_char "-".

(** ###-###-#### *)
Definition phone_dashed : list (ascii -> bool) :=
  [is_digit; is_digit; is_digit; dash; is_digit; is_digit; is_digit; dash;
   is_digit; is_digit; is_digit; is_digit].
(** Ten digits in a row. *)
Definition phone_plain : list (ascii -> bool) := repeat is_digit 10.

Definition phone_at (s : string) : bool :=
  prefix_fits phone_dashed s || prefix_fits phone_plain s.

(** A phone-shaped token starts somewhere in [s]. *)
Fixpoint has_phone (s : string) : bool :=
  phone_at s || match s with
                | EmptyString => false
                | String _ s' => has_phone s'
                end.

(** The test a stripped line must pass. *)
Definition qualifies (line : string) : bool :=
  (2 <? String.length line) && negb (starts_with_digit line)
  && negb (has_phone line).


Lemma re_match_leading_digits (line : string) :
  re_match re_leading_digits line = starts_with_digit line.
Proof.
  unfold re_match, match_at, re_leading_digits. simpl.
  destruct line as [| c line]; [reflexivity |].
  simpl. destruct (is_digit c); [| reflexivity].
  simpl. rewrite Nat.sub_0_r.
  erewrite backoff_top; [reflexivity |].
  rewrite Nat.sub_0_r. erewrite backoff_top; reflexivity.
Qed.

Lemma re_match_phone (s : string) : re_match re_phone s = phone_at s.
Proof.
  unfold re_match, match_at, re_phone, phone_at. cbn [run].
  rewrite (@run_shape re_phone_dashed phone_dashed eq_refl).
  rewrite (@run_shape re_phone_plain phone_plain eq_refl).
  destruct (prefix_fits phone_dashed s); [reflexivity |].
  destruct (prefix_fits phone_plain s); reflexivity.
Qed.

Lemma re_search_phone (s : string) : re_search re_phone s = has_phone s.
Proof.
  induction s as [| c s IH]; rewrite re_search_step, re_match_phone; simpl;
    [| rewrite IH]; reflexivity.
Qed.

Lemma vendor_in_find (lines : list string) :
  vendor_in lines = option_map title (find qualifies (map strip lines)).
Proof.
  induction lines as [| line lines IH]; simpl; [reflexivity |].
  unfold qualifies at 1.
  rewrite re_match_leading_digits, re_search_phone.
  destruct (2 <? String.length (strip line)); simpl; [| exact IH].
  destruct (starts_with_digit (strip line)); simpl; [exact IH |].
  destruct (has_phone (strip line)); simpl; [exact IH | reflexivity].
Qed.





(* ================================================================== *)
(** ** parse_date                                                      *)
(* ================================================================== *)

(** The reading of a match that the specification describes, next to
    [date_of_match], the one the code performs: a month-name match is
    read as day, month name, year; a numeric match is read as Y-M-D when
    its first group has 4 digits and as M-D-Y otherwise, a year of
    exactly 2 digits being expanded around the pivot 50. *)
Definition date_of_match_spec (m : list string) : option Datetime :=
  match m with
  | [m0; m1; m2] =>
      if isalpha m0 then
        strptime_dBY (m1 ++ " " ++ m0 ++ " " ++ m2)
      else if String.length m0 =? 4 then datetime_of m0 m1 m2
      else
        match int m2 with
        | None => None
        | Some year =>
            let year :=
              if String.length m2 =? 2 then
                if (year <? 50)%Z then (year + 2000)%Z else (year + 1900)%Z
              else year in
            match int m0, int m1 with
            | Some mo, Some d => datetime year mo d
            | _, _ => None
            end
        end
  | _ => None
  end.

(** parse_date with the specification's reading of a match. *)
Definition parse_date_spec (today : string) (text : string) : string :=
  match scan_dates date_of_match_spec date_patterns text with
  | Some date_obj => strftime date_obj
  | None => today
  end.

(** A day of the calendar. *)
Definition valid_date (dt : Datetime) : Prop :=
  (1 <= dt_year dt <= 9999 /\ 1 <= dt_month dt <= 12
   /\ 1 <= dt_day dt <= days_in_month (dt_year dt) (dt_month dt))%Z.







(** C5. The code does not read a year-first match as Y-M-D. In the text
    2024-01-15 the first pattern finds 24-01-15, which is no date (month
    24); the second pattern finds (2024, 01, 15), whose last group has 2
    characters, so the code takes the branch of the short years and asks
    for month 2024 of the year 2015: no date either, and parse_date
    returns today. With the reading the claim states the result is
    2024-01-15. Likewise 2024/12/25 gives today; and 2012-01-05 is read
    through the first pattern as 12-01-05, the first of December 2005. *)
Theorem parse_date_year_first (today : string) :
  parse_date today "2024-01-15" = today
  /\ parse_date_spec today "2024-01-15" = "2024-01-15"
  /\ findall (nth 1 date_patterns Eps) "2024-01-15" = [["2024"; "01"; "15"]]
  /\ date_of_match ["2024"; "01"; "15"] = None
  /\ date_of_match_spec ["2024"; "01"; "15"] = Some (mkDatetime 2024 1 15)
  /\ parse_date today "2024/12/25" = today
  /\ parse_date today "2012-01-05" = "2005-12-01".
Proof.
  repeat split; vm_compute; reflexivity.
Qed.

(* ================================================================== *)
(** ** The store keeps its records well dated                          *)
(* ================================================================== *)

(** Every record add_expense appends is well dated, provided today's date
    is printed in the format it checks; so a store filled through
    add_expense holds well dated records only. *)
Lemma add_expense_well_dated
      (str_amount : Q -> string) (today : string) (t : tracker)
      (amt : Q) (cat vend desc : string) (dt : option string) :
  strptime_ymd today <> None ->
  Forall well_dated (expenses t) ->
  Forall well_dated
         (expenses (snd (add_expense str_amount today t amt cat vend desc dt))).
Proof.
  intros Htoday Hall. rewrite add_expense_cases.
  destruct (Qlt_bool amt 0); [exact Hall |].
  destruct (negb (mem cat EXPENSE_CATEGORIES)); [exact Hall |].
  destruct dt as [d |].
  - destruct (strptime_ymd d) eqn:E; [| exact Hall].
    simpl. rewrite expenses_save_expenses. simpl.
    apply Forall_app. split; [exact Hall |].
    constructor; [| constructor]. unfold well_dated. simpl. congruence.
  - simpl. rewrite expenses_save_expenses. simpl.
    apply Forall_app. split; [exact Hall |].
    constructor; [| constructor]. exact Htoday.
Qed.


(* ================================================================== *)
(** ** total_expenses, get_expenses_by_category, get_expense_summary   *)
(* ================================================================== *)

(** [sum(expense['amount'] for expense in l)]: from 0, left to right. *)
Definition sum_amounts (l : list Expense) : Q :=
  fold_left (fun acc expense => Qplus acc (amount expense)) l 0%Q.

(** total_expenses: the errors of view_expenses pass through. *)
Definition total_expenses (t : tracker) (cat start_date end_date : option string)
  : result Q :=
  match view_expenses t cat start_date end_date with
  | Ok filtered_expenses => Ok (sum_amounts filtered_expenses)
  | Err e => Err e
  end.

(** A dict from strings to numbers, as the list of its items in insertion
    order. [dict_get k d] is [d.get(k)]. *)
Fixpoint dict_get (k : string) (d : list (string * Q)) : option Q :=
  match d with
  | [] => None
  | (k', v) :: rest => if String.eqb k k' then Some v else dict_get k rest
  end.

(** [d[k] = v]: a key already there keeps its place, a new key goes to
    the end. *)
Fixpoint dict_set (k : string) (v : Q) (d : list (string * Q))
  : list (string * Q) :=
  match d with
  | [] => [(k, v)]
  | (k', v') :: rest =>
      if String.eqb k k' then (k, v) :: rest else (k', v') :: dict_set k v rest
  end.

(** [d.get(k, 0)] *)
Definition dict_get_or_0 (k : string) (d : list (string * Q)) : Q :=
  match dict_get k d with
  | Some v => v
  | None => 0%Q
  end.

(** The body of the loop of get_expenses_by_category. *)
Definition add_to_category (category_totals : list (string * Q)) (expense : Expense)
  : list (string * Q) :=
  dict_set (category expense)
           (Qplus (dict_get_or_0 (category expense) category_totals) (amount expense))
           category_totals.

(** get_expenses_by_category *)
Definition get_expenses_by_category (t : tracker) : list (string * Q) :=
  fold_left add_to_category (expenses t) [].

(** [a < b] on strings: character by character, by code. *)
Fixpoint str_ltb (a b : string) : bool :=
  match a, b with
  | EmptyString, EmptyString => false
  | EmptyString, String _ _ => true
  | String _ _, EmptyString => false
  | String x a', String y b' =>
      (code x <? code y) || ((code x =? code y) && str_ltb a' b')
  end.

(** [min(a :: rest)] and [max(a :: rest)] on strings: the first of the
    smallest, the first of the largest. *)
Definition min_str (a : string) (rest : list string) : string :=
  fold_left (fun best x => if str_ltb x best then x else best) rest a.
Definition max_str (a : string) (rest : list string) : string :=
  fold_left (fun best x => if str_ltb best x then x else best) rest a.

(** The dict get_expense_summary returns; date_range is the pair of its
    start and end, [None] for the Python None. *)
Record Summary : Type := mkSummary {
  total_amount : Q;
  expense_count : nat;
  categories : list (string * Q);
  date_range : option string * option string
}.

(** get_expense_summary *)
Definition get_expense_summary (t : tracker) : Summary :=
  match map date (expenses t) with
  | [] => mkSummary 0%Q 0 [] (None, None)
  | d :: dates =>
      mkSummary (sum_amounts (expenses t))
                (List.length (expenses t))
                (get_expenses_by_category t)
                (Some (min_str d dates), Some (max_str d dates))
  end.

(** [sum(d.values())] *)
Definition sum_values (d : list (string * Q)) : Q :=
  fold_left (fun acc kv => Qplus acc (snd kv)) d 0%Q.

(** The keys of a list, each once, in the order of their first
    appearance. *)
Fixpoint first_seen (l : list string) : list string :=
  match l with
  | [] => []
  | k :: rest => k :: filter (fun x => negb (String.eqb x k)) (first_seen rest)
  end.

(* ------------------------------------------------------------------ *)
(** *** Facts on dicts                                                 *)
(* ------------------------------------------------------------------ *)

Lemma dict_get_set_same (k : string) (v : Q) (d : list (string * Q)) :
  dict_get k (dict_set k v d) = Some v.
Proof.
  induction d as [| [k' v'] d IH]; simpl.
  - now rewrite String.eqb_refl.
  - destruct (String.eqb k k') eqn:E; simpl.
    + now rewrite String.eqb_refl.
    + now rewrite E.
Qed.

Lemma dict_get_set_other (k k0 : string) (v : Q) (d : list (string * Q)) :
  k <> k0 -> dict_get k (dict_set k0 v d) = dict_get k d.
Proof.
  intros Hne. induction d as [| [k' v'] d IH]; simpl.
  - destruct (String.eqb k k0) eqn:E; [| reflexivity].
    apply String.eqb_eq in E. contradiction.
  - destruct (String.eqb k0 k') eqn:E0; simpl.
    + apply String.eqb_eq in E0. subst k'.
      destruct (String.eqb k k0) eqn:E; [| reflexivity].
      apply String.eqb_eq in E. contradiction.
    + destruct (String.eqb k k'); [reflexivity | exact IH].
Qed.

Lemma dict_keys_set (k : string) (v : Q) (d : list (string * Q)) :
  map fst (dict_set k v d) =
    if mem k (map fst d) then map fst d else (map fst d ++ [k])%list.
Proof.
  induction d as [| [k' v'] d IH]; simpl; [reflexivity |].
  destruct (String.eqb k k') eqn:E; simpl.
  - apply String.eqb_eq in E. now subst.
  - rewrite IH. unfold mem. destruct (existsb (String.eqb k) (map fst d)); reflexivity.
Qed.

Lemma dict_get_None_keys (k : string) (d : list (string * Q)) :
  dict_get k d = None <-> ~ In k (map fst d).
Proof.
  induction d as [| [k' v'] d IH]; simpl.
  - split; [intros _ [] | reflexivity].
  - destruct (String.eqb k k') eqn:E.
    + apply String.eqb_eq in E. subst. split; [discriminate |].
      intros H. exfalso. apply H. now left.
    + apply String.eqb_neq in E. rewrite IH. split.
      * intros H [Heq | Hin]; [congruence | contradiction].
      * intros H Hin. apply H. now right.
Qed.

Lemma dict_get_or_0_set_same (k : string) (v : Q) (d : list (string * Q)) :
  dict_get_or_0 k (dict_set k v d) = v.
Proof. unfold dict_get_or_0. now rewrite dict_get_set_same. Qed.

Lemma dict_get_or_0_set_other (k k0 : string) (v : Q) (d : list (string * Q)) :
  k <> k0 -> dict_get_or_0 k (dict_set k0 v d) = dict_get_or_0 k d.
Proof. intros H. unfold dict_get_or_0. now rewrite (dict_get_set_other _ _ H). Qed.

Lemma by_category_get (c : string) (l : list Expense) :
  forall d : list (string * Q),
    dict_get c (fold_left add_to_category l d) =
      match dict_get c d, filter (in_category c) l with
      | None, [] => None
      | _, fl =>
          Some (fold_left (fun acc expense => Qplus acc (amount expense)) fl
                          (dict_get_or_0 c d))
      end.
Proof.
  induction l as [| e l IH]; intros d.
  - simpl. unfold dict_get_or_0. destruct (dict_get c d); reflexivity.
  - cbn [fold_left filter]. rewrite IH. unfold add_to_category.
    destruct (in_category c e) eqn:E.
    + unfold in_category in E. apply String.eqb_eq in E. rewrite E.
      rewrite dict_get_set_same, dict_get_or_0_set_same.
      destruct (dict_get c d); destruct (filter (in_category c) l); reflexivity.
    + unfold in_category in E. apply String.eqb_neq in E.
      assert (Hne : c <> category e) by congruence.
      rewrite (dict_get_set_other _ _ Hne), (dict_get_or_0_set_other _ _ Hne).
      reflexivity.
Qed.

Lemma truthy_category (c : string) :
  In c EXPENSE_CATEGORIES -> truthy (Some c) = Some c.
Proof.
  intros H. destruct c; [| reflexivity].
  exfalso. revert H. apply mem_not_In. reflexivity.
Qed.

Lemma view_expenses_category_only (t : tracker) (c : string) :
  In c EXPENSE_CATEGORIES ->
  view_expenses t (Some c) None None = Ok (filter (in_category c) (expenses t)).
Proof.
  intros H. unfold view_expenses. rewrite (truthy_category H).
  apply mem_In in H. rewrite H. reflexivity.
Qed.

(** The breakdown and the filtered total agree, category by category:
    for a category of EXPENSE_CATEGORIES, the entry of
    get_expenses_by_category is the very number total_expenses returns for
    that category; the category has no entry exactly when no record
    carries it, and then the total is the empty sum. *)
Theorem by_category_matches_total (t : tracker) (c : string) :
  In c EXPENSE_CATEGORIES ->
  (forall s, dict_get c (get_expenses_by_category t) = Some s ->
             total_expenses t (Some c) None None = Ok s)
  /\ (dict_get c (get_expenses_by_category t) = None <->
      forall e, In e (expenses t) -> category e <> c)
  /\ (dict_get c (get_expenses_by_category t) = None ->
      total_expenses t (Some c) None None = Ok 0%Q).
Proof.
  intros Hc. unfold total_expenses, get_expenses_by_category.
  rewrite (view_expenses_category_only t Hc), by_category_get. simpl.
  assert (Hnil : filter (in_category c) (expenses t) = [] <->
                 forall e, In e (expenses t) -> category e <> c).
  { split.
    - intros Hf e He Heq.
      assert (Hin : In e (filter (in_category c) (expenses t))).
      { apply filter_In. split; [exact He |].
        unfold in_category. now apply String.eqb_eq. }
      rewrite Hf in Hin. exact Hin.
    - intros Hall. destruct (filter (in_category c) (expenses t)) as [| e fl] eqn:E;
        [reflexivity |].
      assert (Hin : In e (filter (in_category c) (expenses t)))
        by (rewrite E; now left).
      apply filter_In in Hin. destruct Hin as [He Hcat].
      unfold in_category in Hcat. apply String.eqb_eq in Hcat.
      exfalso. exact (Hall e He Hcat). }
  destruct (filter (in_category c) (expenses t)) as [| e fl] eqn:E.
  - split; [discriminate |]. split; [| reflexivity].
    split; [intros _; now apply Hnil | reflexivity].
  - split; [intros s Hs; inversion Hs; reflexivity |].
    split; [| discriminate].
    split; [discriminate |].
    intros Hall. apply Hnil in Hall. discriminate.
Qed.

Definition three_expenses : tracker :=
  mkTracker None 0 "csv"
    [mkExpense "2024-01-15" (31 # 2) "Food & Dining" "McDonald's" "Lunch";
     mkExpense "2024-01-16" (8999 # 100) "Groceries" "Safeway" "Weekly shopping";
     mkExpense "2024-01-17" (13 # 4) "Food & Dining" "Subway" ""].

Lemma by_category_matches_total_witness :
  (forall s, dict_get "Food & Dining" (get_expenses_by_category three_expenses) = Some s ->
             total_expenses three_expenses (Some "Food & Dining") None None = Ok s)
  /\ (dict_get "Food & Dining" (get_expenses_by_category three_expenses) = None <->
      forall e, In e (expenses three_expenses) -> category e <> "Food & Dining")
  /\ (dict_get "Food & Dining" (get_expenses_by_category three_expenses) = None ->
      total_expenses three_expenses (Some "Food & Dining") None None = Ok 0%Q).
Proof.
  apply (@by_category_matches_total three_expenses "Food & Dining").
  simpl. tauto.
Defined.

Lemma first_seen_In (k : string) (l : list string) :
  In k (first_seen l) <-> In k l.
Proof.
  induction l as [| x l IH]; simpl; [tauto |].
  rewrite filter_In, IH, negb_true_iff. split.
  - intros [H | [H _]]; auto.
  - intros [H | H]; [now left |].
    destruct (String.eqb k x) eqn:E.
    + apply String.eqb_eq in E. left. congruence.
    + right. auto.
Qed.

Lemma first_seen_NoDup (l : list string) : NoDup (first_seen l).
Proof.
  induction l as [| x l IH]; simpl; constructor.
  - rewrite filter_In, negb_true_iff, String.eqb_refl. intros [_ H]. discriminate.
  - now apply NoDup_filter.
Qed.

Lemma mem_app (x : string) (a b : list string) :
  mem x (a ++ b) = mem x a || mem x b.
Proof. unfold mem. apply existsb_app. Qed.

Lemma by_category_keys_from (l : list Expense) :
  forall d : list (string * Q),
    map fst (fold_left add_to_category l d) =
      (map fst d
       ++ filter (fun x => negb (mem x (map fst d)))
                 (first_seen (map category l)))%list.
Proof.
  induction l as [| e l IH]; intros d.
  - simpl. now rewrite app_nil_r.
  - cbn [fold_left map first_seen filter]. rewrite IH.
    unfold add_to_category. rewrite dict_keys_set.
    destruct (mem (category e) (map fst d)) eqn:E; simpl.
    + f_equal. rewrite filter_filter. apply filter_ext. intros x.
      destruct (String.eqb x (category e)) eqn:Ex; simpl; [| reflexivity].
      apply String.eqb_eq in Ex. subst x. now rewrite E.
    + rewrite <- app_assoc. simpl. f_equal. f_equal.
      rewrite filter_filter. apply filter_ext. intros x.
      rewrite mem_app. unfold mem at 2. simpl. rewrite orb_false_r.
      destruct (mem x (map fst d)); destruct (String.eqb x (category e));
        reflexivity.
Qed.

(** The keys of the breakdown are the categories of the store, in the
    order of their first appearance there, each exactly once. *)
Theorem by_category_keys (t : tracker) :
  map fst (get_expenses_by_category t) = first_seen (map category (expenses t))
  /\ NoDup (map fst (get_expenses_by_category t))
  /\ (forall k, In k (map fst (get_expenses_by_category t)) <->
                exists e, In e (expenses t) /\ category e = k).
Proof.
  assert (H : map fst (get_expenses_by_category t)
              = first_seen (map category (expenses t))).
  { unfold get_expenses_by_category. rewrite by_category_keys_from. simpl.
    apply filter_true. }
  split; [exact H |]. rewrite H. split; [apply first_seen_NoDup |].
  intros k. rewrite first_seen_In, in_map_iff. split.
  - intros [e [Hc He]]. exists e. auto.
  - intros [e [He Hc]]. exists e. auto.
Qed.

Lemma fold_Qplus_acc {A} (g : A -> Q) (l : list A) (a : Q) :
  (fold_left (fun acc x => Qplus acc (g x)) l a
   == a + fold_left (fun acc x => Qplus acc (g x)) l 0)%Q.
Proof.
  revert a. induction l as [| x l IH]; intros a; simpl.
  - ring.
  - rewrite (IH (a + g x)%Q), (IH (0 + g x)%Q). ring.
Qed.

Lemma sum_values_cons (kv : string * Q) (d : list (string * Q)) :
  (sum_values (kv :: d) == snd kv + sum_values d)%Q.
Proof.
  unfold sum_values. simpl. rewrite fold_Qplus_acc. ring.
Qed.

Lemma sum_values_set (k : string) (a : Q) (d : list (string * Q)) :
  (sum_values (dict_set k (Qplus (dict_get_or_0 k d) a) d) == sum_values d + a)%Q.
Proof.
  unfold dict_get_or_0. induction d as [| [k' v'] d IH].
  - simpl. unfold sum_values. simpl. ring.
  - simpl. destruct (String.eqb k k') eqn:E.
    + rewrite !sum_values_cons. simpl. ring.
    + rewrite !sum_values_cons. simpl. rewrite IH. ring.
Qed.

Lemma sum_values_fold (l : list Expense) :
  forall d : list (string * Q),
    (sum_values (fold_left add_to_category l d) == sum_values d + sum_amounts l)%Q.
Proof.
  unfold sum_amounts.
  induction l as [| e l IH]; intros d; simpl.
  - ring.
  - rewrite IH. unfold add_to_category. rewrite sum_values_set.
    rewrite (fold_Qplus_acc amount l (0 + amount e)%Q). ring.
Qed.

(** The breakdown adds up, amounts being exact numbers: the sum of the
    values of get_expenses_by_category equals the unfiltered total. (With
    floats the two sums add the same numbers in another order and can
    differ by rounding.) *)
Theorem by_category_sums_to_total (t : tracker) :
  exists total,
    total_expenses t None None None = Ok total
    /\ (sum_values (get_expenses_by_category t) == total)%Q.
Proof.
  exists (sum_amounts (expenses t)). split; [reflexivity |].
  unfold get_expenses_by_category. rewrite sum_values_fold.
  unfold sum_values. simpl. ring.
Qed.

(* ------------------------------------------------------------------ *)
(** *** The order on strings                                           *)
(* ------------------------------------------------------------------ *)

Lemma code_inj (x y : ascii) : code x = code y -> x = y.
Proof.
  unfold code. intros H.
  rewrite <- (ascii_nat_embedding x), <- (ascii_nat_embedding y). now rewrite H.
Qed.

Lemma str_ltb_irrefl (a : string) : str_ltb a a = false.
Proof.
  induction a as [| x a IH]; simpl; [reflexivity |].
  rewrite Nat.ltb_irrefl, Nat.eqb_refl, IH. reflexivity.
Qed.

Lemma str_ltb_trans (a b c : string) :
  str_ltb a b = true -> str_ltb b c = true -> str_ltb a c = true.
Proof.
  revert b c. induction a as [| x a IH]; intros [| y b] [| z c]; simpl;
    try discriminate; try reflexivity.
  rewrite !orb_true_iff, !andb_true_iff, !Nat.ltb_lt, !Nat.eqb_eq.
  intros [H1 | [H1 A1]] [H2 | [H2 A2]].
  - left. lia.
  - left. lia.
  - left. lia.
  - right. split; [lia | eapply IH; eassumption].
Qed.

Lemma str_ltb_total (a b : string) :
  str_ltb a b = false -> str_ltb b a = true \/ a = b.
Proof.
  revert b. induction a as [| x a IH]; intros [| y b]; simpl;
    try discriminate; auto.
  rewrite orb_false_iff, andb_false_iff, Nat.ltb_ge, Nat.eqb_neq.
  rewrite orb_true_iff, andb_true_iff, Nat.ltb_lt, Nat.eqb_eq.
  intros [H1 [H2 | H2]].
  - left. left. lia.
  - destruct (Nat.eq_dec (code x) (code y)) as [E | E].
    + destruct (IH b H2) as [H | H].
      * left. right. split; [lia | exact H].
      * right. apply code_inj in E. now subst.
    + left. left. lia.
Qed.

Lemma str_ltb_asym (a b : string) : str_ltb a b = true -> str_ltb b a = false.
Proof.
  intros H. destruct (str_ltb b a) eqn:E; [| reflexivity].
  pose proof (str_ltb_trans _ _ _ H E) as H'.
  rewrite str_ltb_irrefl in H'. discriminate.
Qed.

(** [b] is not above [a]: [a <= b]. *)
Lemma str_not_above_trans (a b c : string) :
  str_ltb b a = false -> str_ltb c b = false -> str_ltb c a = false.
Proof.
  intros Hab Hbc. destruct (str_ltb c a) eqn:E; [| reflexivity].
  destruct (str_ltb_total _ _ Hab) as [H | H].
  - pose proof (str_ltb_trans _ _ _ E H) as H'. congruence.
  - subst. congruence.
Qed.

Lemma min_str_spec (rest : list string) (a : string) :
  In (min_str a rest) (a :: rest)
  /\ forall x, In x (a :: rest) -> str_ltb x (min_str a rest) = false.
Proof.
  unfold min_str. revert a. induction rest as [| b rest IH]; intros a; simpl.
  - split; [now left |]. intros x [Hx | []]. subst. apply str_ltb_irrefl.
  - destruct (str_ltb b a) eqn:E.
    + destruct (IH b) as [Hin Hmin]. split.
      * destruct Hin as [Hin | Hin]; [right; left; exact Hin | right; right; exact Hin].
      * intros x [Hx | Hx]; [| now apply Hmin].
        subst x. apply str_not_above_trans with b.
        -- apply Hmin. now left.
        -- now apply str_ltb_asym.
    + destruct (IH a) as [Hin Hmin]. split.
      * destruct Hin as [Hin | Hin]; [left; exact Hin | right; right; exact Hin].
      * intros x [Hx | [Hx | Hx]].
        -- subst x. apply Hmin. now left.
        -- subst x. apply str_not_above_trans with a; [| exact E].
           apply Hmin. now left.
        -- apply Hmin. now right.
Qed.

Lemma max_str_spec (rest : list string) (a : string) :
  In (max_str a rest) (a :: rest)
  /\ forall x, In x (a :: rest) -> str_ltb (max_str a rest) x = false.
Proof.
  unfold max_str. revert a. induction rest as [| b rest IH]; intros a; simpl.
  - split; [now left |]. intros x [Hx | []]. subst. apply str_ltb_irrefl.
  - destruct (str_ltb a b) eqn:E.
    + destruct (IH b) as [Hin Hmax]. split.
      * destruct Hin as [Hin | Hin]; [right; left; exact Hin | right; right; exact Hin].
      * intros x [Hx | Hx]; [| now apply Hmax].
        subst x. apply str_not_above_trans with b.
        -- now apply str_ltb_asym.
        -- apply Hmax. now left.
    + destruct (IH a) as [Hin Hmax]. split.
      * destruct Hin as [Hin | Hin]; [left; exact Hin | right; right; exact Hin].
      * intros x [Hx | [Hx | Hx]].
        -- subst x. apply Hmax. now left.
        -- subst x. apply str_not_above_trans with a; [exact E |].
           apply Hmax. now left.
        -- apply Hmax. now right.
Qed.

(* ------------------------------------------------------------------ *)
(** *** get_expense_summary                                            *)
(* ------------------------------------------------------------------ *)

Lemma summary_count (t : tracker) :
  expense_count (get_expense_summary t) = List.length (expenses t).
Proof.
  unfold get_expense_summary. destruct (expenses t); reflexivity.
Qed.

(** The summary agrees with the single queries on every store, the empty
    one included: its total is what total_expenses returns without
    filters, its count is the number of records and its categories are the
    breakdown. The date range is (None, None) exactly for the empty
    store; otherwise its two ends are dates of the store, and no date of
    the store is below the start or above the end in the order of
    strings. *)
Theorem summary_agrees (t : tracker) :
  total_expenses t None None None = Ok (total_amount (get_expense_summary t))
  /\ expense_count (get_expense_summary t) = List.length (expenses t)
  /\ categories (get_expense_summary t) = get_expenses_by_category t
  /\ (date_range (get_expense_summary t) = (None, None) <-> expenses t = [])
  /\ (expenses t <> [] ->
      exists lo hi,
        date_range (get_expense_summary t) = (Some lo, Some hi)
        /\ In lo (map date (expenses t)) /\ In hi (map date (expenses t))
        /\ forall d, In d (map date (expenses t)) ->
                     str_ltb d lo = false /\ str_ltb hi d = false).
Proof.
  split; [| split; [apply summary_count | split; [| split]]].
  - unfold total_expenses, get_expense_summary. simpl.
    destruct (expenses t); reflexivity.
  - unfold get_expense_summary, get_expenses_by_category.
    destruct (expenses t); reflexivity.
  - unfold get_expense_summary. destruct (expenses t); simpl; split;
      congruence.
  - intros Hne. unfold get_expense_summary.
    destruct (expenses t) as [| e l]; [congruence |]. simpl.
    destruct (min_str_spec (map date l) (date e)) as [Hlo Hmin].
    destruct (max_str_spec (map date l) (date e)) as [Hhi Hmax].
    eexists. eexists. split; [reflexivity |].
    split; [exact Hlo |]. split; [exact Hhi |].
    intros d Hd. split; [now apply Hmin | now apply Hmax].
Qed.




(* ================================================================== *)
(** ** What the store holds                                            *)
(* ================================================================== *)




(** [l1] is [l2] with some elements left out, the others in their order. *)
Inductive subseq {A : Type} : list A -> list A -> Prop :=
| subseq_nil : subseq [] []
| subseq_skip : forall x l1 l2, subseq l1 l2 -> subseq l1 (x :: l2)
| subseq_keep : forall x l1 l2, subseq l1 l2 -> subseq (x :: l1) (x :: l2).

Lemma subseq_refl {A} (l : list A) : subseq l l.
Proof. induction l; [apply subseq_nil | apply subseq_keep; assumption]. Qed.

Lemma subseq_trans {A} (l1 l2 l3 : list A) :
  subseq l1 l2 -> subseq l2 l3 -> subseq l1 l3.
Proof.
  intros H12 H23. revert l1 H12.
  induction H23 as [| x l2 l3 H IH | x l2 l3 H IH]; intros l1 H12.
  - exact H12.
  - constructor. now apply IH.
  - inversion H12; subst.
    + apply subseq_skip. now apply IH.
    + apply subseq_keep. now apply IH.
Qed.

Lemma subseq_filter {A} (f : A -> bool) (l : list A) : subseq (filter f l) l.
Proof.
  induction l as [| x l IH]; simpl; [constructor |].
  destruct (f x); [apply subseq_keep | apply subseq_skip]; assumption.
Qed.

Lemma subseq_Forall {A} (P : A -> Prop) (l1 l2 : list A) :
  subseq l1 l2 -> Forall P l2 -> Forall P l1.
Proof.
  induction 1 as [| x l1 l2 H IH | x l1 l2 H IH]; intros HP.
  - constructor.
  - inversion HP; subst. now apply IH.
  - inversion HP; subst. constructor; [assumption | now apply IH].
Qed.

Lemma filter_by_date_subseq (keep : Datetime -> bool) (l r : list Expense) :
  filter_by_date keep l = Some r -> subseq r l.
Proof.
  revert r. induction l as [| exp l IH]; intros r; simpl.
  - intros H. inversion H. constructor.
  - destruct (strptime_ymd (date exp)); [| discriminate].
    destruct (filter_by_date keep l) as [r' |]; [| discriminate].
    intros H. inversion H; subst.
    destruct (keep d); [apply subseq_keep | apply subseq_skip]; now apply IH.
Qed.

Lemma filter_by_date_bad (keep : Datetime -> bool) (l : list Expense) (exp : Expense) :
  In exp l -> strptime_ymd (date exp) = None -> filter_by_date keep l = None.
Proof.
  intros Hin Hbad. induction l as [| x l IH]; [destruct Hin |].
  simpl. destruct Hin as [Hx | Hin].
  - subst x. now rewrite Hbad.
  - destruct (strptime_ymd (date x)); [| reflexivity].
    now rewrite (IH Hin).
Qed.

(** view_expenses never invents, repeats or reorders: on every store,
    well dated or not, and for every filter, what it returns is the
    store's list with some records left out; and when a category filter is
    applied every record returned carries that category. *)
Theorem view_expenses_subsequence
        (t : tracker) (cat start_date end_date : option string)
        (l : list Expense) :
  view_expenses t cat start_date end_date = Ok l ->
  subseq l (expenses t)
  /\ forall c, truthy cat = Some c -> Forall (fun exp => category exp = c) l.
Proof.
  unfold view_expenses.
  set (by_cat := match truthy cat with
                 | Some c => if negb (mem c EXPENSE_CATEGORIES) then Err InvalidCategory
                             else Ok (filter (in_category c) (expenses t))
                 | None => Ok (expenses t)
                 end).
  assert (Hcat : forall l0, by_cat = Ok l0 ->
            subseq l0 (expenses t)
            /\ forall c, truthy cat = Some c -> Forall (fun exp => category exp = c) l0).
  { intros l0. unfold by_cat. destruct (truthy cat) as [c |].
    - destruct (negb (mem c EXPENSE_CATEGORIES)); [discriminate |].
      intros H. inversion H; subst. split; [apply subseq_filter |].
      intros c' Hc'. inversion Hc'; subst.
      apply Forall_forall. intros exp Hexp. apply filter_In in Hexp.
      destruct Hexp as [_ Hexp]. unfold in_category in Hexp.
      now apply String.eqb_eq.
    - intros H. inversion H; subst. split; [apply subseq_refl | discriminate]. }
  destruct by_cat as [l0 | e0]; [| discriminate].
  destruct (Hcat l0 eq_refl) as [Hsub0 Hall0]. clear Hcat.
  assert (Hstep : forall (bound : option string) (what : string)
                         (keep : Datetime -> Datetime -> bool) lin lout,
            match truthy bound with
            | Some s =>
                match strptime_ymd s with
                | None => Err (InvalidDate what)
                | Some b =>
                    match filter_by_date (keep b) lin with
                    | None => Err (InvalidDate what)
                    | Some r => Ok r
                    end
                end
            | None => Ok lin
            end = Ok lout -> subseq lout lin).
  { intros bound what keep lin lout.
    destruct (truthy bound) as [s |].
    - destruct (strptime_ymd s) as [b |]; [| discriminate].
      destruct (filter_by_date (keep b) lin) as [r |] eqn:E; [| discriminate].
      intros H. inversion H; subst. eapply filter_by_date_subseq; eassumption.
    - intros H. inversion H; subst. apply subseq_refl. }
  pose proof (Hstep start_date "start_date" (fun b dt => dt_leb b dt) l0) as H1.
  destruct (match truthy start_date with
            | Some s => _
            | None => Ok l0
            end) as [l1 | e1]; [| discriminate].
  specialize (H1 l1 eq_refl).
  pose proof (Hstep end_date "end_date" (fun b dt => dt_leb dt b) l1) as H2.
  intros Hend. specialize (H2 l Hend).
  assert (Hsub : subseq l l0) by (eapply subseq_trans; eassumption).
  split; [eapply subseq_trans; eassumption |].
  intros c Hc. eapply subseq_Forall; [exact Hsub | now apply Hall0].
Qed.

Lemma view_expenses_subsequence_witness :
  subseq [mkExpense "2024-01-15" (31 # 2) "Food & Dining" "McDonald's" "Lunch";
          mkExpense "2024-01-17" (13 # 4) "Food & Dining" "Subway" ""]
         (expenses three_expenses)
  /\ forall c, truthy (Some "Food & Dining") = Some c ->
               Forall (fun exp => category exp = c)
                 [mkExpense "2024-01-15" (31 # 2) "Food & Dining" "McDonald's" "Lunch";
                  mkExpense "2024-01-17" (13 # 4) "Food & Dining" "Subway" ""].
Proof.
  apply (@view_expenses_subsequence three_expenses (Some "Food & Dining")
           (Some "2024-01-01") None).
  vm_compute. reflexivity.
Defined.

(** A record whose date [strptime] rejects (a csv or json file may hold
    one) makes every query with a start date fail, and the error blames
    the start date although it is well formed: the record only has to
    pass the category filter. *)
Theorem stored_bad_date_blames_bound
        (t : tracker) (cat end_date : option string) (s : string)
        (exp : Expense) :
  bad_category cat = false ->
  s <> EmptyString ->
  strptime_ymd s <> None ->
  In exp (expenses t) ->
  of_category cat exp = true ->
  strptime_ymd (date exp) = None ->
  view_expenses t cat (Some s) end_date = Err (InvalidDate "start_date").
Proof.
  intros Hcat Hs Hparse Hin Hof Hbad.
  assert (Htruthy : truthy (Some s) = Some s)
    by (destruct s; [congruence | reflexivity]).
  unfold view_expenses. rewrite Htruthy.
  unfold bad_category in Hcat. unfold of_category in Hof.
  destruct (strptime_ymd s) as [b |]; [| congruence].
  destruct (truthy cat) as [c |].
  - rewrite Hcat.
    assert (Hin' : In exp (filter (in_category c) (expenses t)))
      by (apply filter_In; auto).
    now rewrite (filter_by_date_bad _ _ _ Hin' Hbad).
  - now rewrite (filter_by_date_bad _ _ _ Hin Hbad).
Qed.

Definition store_with_bad_date : tracker :=
  ExpenseTracker (Some (CsvFile [mkRow "15/01/2024" "5" "Gas" "Shell" ""])) "csv".

Lemma stored_bad_date_blames_bound_witness :
  view_expenses store_with_bad_date None (Some "2024-01-01") None
  = Err (InvalidDate "start_date").
Proof.
  apply (@stored_bad_date_blames_bound store_with_bad_date None None "2024-01-01"
           (mkExpense "15/01/2024" (5 # 1) "Gas" "Shell" "")).
  - reflexivity.
  - discriminate.
  - vm_compute. discriminate.
  - simpl. now left.
  - reflexivity.
  - vm_compute. reflexivity.
Defined.

(* ================================================================== *)
(** ** Opening a tracker on a file                                     *)
(* ================================================================== *)





(** A storage format other than csv and json is accepted silently and
    nothing is ever saved: add_expense succeeds and the record is in
    memory, but the file is not written, and loading gives the empty
    list. *)
Theorem unsupported_format_never_writes
        (str_amount : Q -> string) (today : string) (t : tracker)
        (amt : Q) (cat vend desc : string) (dt : option string)
        (r : Expense) (t' : tracker) :
  storage_format t <> "csv" ->
  storage_format t <> "json" ->
  add_expense str_amount today t amt cat vend desc dt = (Ok r, t') ->
  In r (expenses t')
  /\ disk t' = disk t /\ writes t' = writes t
  /\ expenses (load_expenses t') = [].
Proof.
  intros Hcsv Hjson Hadd.
  apply String.eqb_neq in Hcsv. apply String.eqb_neq in Hjson.
  assert (Hsave : forall u, storage_format u = storage_format t ->
                            save_expenses str_amount u = u).
  { intros u Hu. unfold save_expenses. now rewrite Hu, Hcsv, Hjson. }
  assert (Hload : forall u, storage_format u = storage_format t ->
                            expenses (load_expenses u) = []).
  { intros u Hu. unfold load_expenses. rewrite Hu, Hcsv, Hjson.
    destruct (disk u); reflexivity. }
  rewrite add_expense_cases in Hadd.
  destruct (Qlt_bool amt 0); [discriminate |].
  destruct (negb (mem cat EXPENSE_CATEGORIES)); [discriminate |].
  destruct dt as [d |]; [destruct (strptime_ymd d); [| discriminate] |];
    rewrite Hsave in Hadd by reflexivity; inversion Hadd; subst; simpl;
    (split; [apply in_or_app; right; now left |]);
    (split; [reflexivity |]); (split; [reflexivity |]);
    now apply Hload.
Qed.

Lemma unsupported_format_never_writes_witness :
  In (mkExpense "2024-06-01" (5 # 1) "Gas" "Shell" "")
     (expenses (snd (add_expense (fun _ => "5") "2024-06-01"
                                 (ExpenseTracker None "xml") (5 # 1)
                                 "Gas" "Shell" "" None)))
  /\ disk (snd (add_expense (fun _ => "5") "2024-06-01"
                            (ExpenseTracker None "xml") (5 # 1)
                            "Gas" "Shell" "" None))
     = disk (ExpenseTracker None "xml")
  /\ writes (snd (add_expense (fun _ => "5") "2024-06-01"
                              (ExpenseTracker None "xml") (5 # 1)
                              "Gas" "Shell" "" None))
     = writes (ExpenseTracker None "xml")
  /\ expenses (load_expenses
                 (snd (add_expense (fun _ => "5") "2024-06-01"
                                   (ExpenseTracker None "xml") (5 # 1)
                                   "Gas" "Shell" "" None))) = [].
Proof.
  apply (@unsupported_format_never_writes (fun _ => "5") "2024-06-01"
           (ExpenseTracker None "xml") (5 # 1) "Gas" "Shell" "" None).
  - discriminate.
  - discriminate.
  - reflexivity.
Defined.




(* ================================================================== *)
(** ** process_receipt and add_expense_from_receipt                    *)
(* ================================================================== *)

(** What is behind [image_path]: no file; a file that [Image.open] or
    pytesseract cannot handle; or an image in which pytesseract reads the
    given text. *)
Inductive image : Type :=
| ImageMissing : image
| ImageUnreadable : image
| ImageText : string -> image.

(** The ValueErrors of the receipt path, by message: "Image file not
    found", "Error extracting text from receipt", "Could not extract
    amount from receipt. Please add manually.", and the errors of
    add_expense. *)
Inductive receipt_error : Type :=
| ImageNotFound : receipt_error
| ExtractionFailed : receipt_error
| MissingAmount : receipt_error
| Rejected : error -> receipt_error.

Inductive outcome (A : Type) : Type :=
| Done : A -> outcome A
| Failed : receipt_error -> outcome A.
Arguments Done {A} _.
Arguments Failed {A} _.

(** The dict process_receipt returns. *)
Record ReceiptInfo : Type := mkReceiptInfo {
  info_amount : option Q;
  info_date : string;
  info_vendor : string;
  suggested_category : string;
  extracted_text : string;
  needs_review : bool
}.

(** extract_text_from_receipt: the text pytesseract reads, stripped. *)
Definition extract_text_from_receipt (img : image) : outcome string :=
  match img with
  | ImageText raw => Done (strip raw)
  | _ => Failed ExtractionFailed
  end.

(** process_receipt *)
Definition process_receipt (today : string) (img : image) : outcome ReceiptInfo :=
  match img with
  | ImageMissing => Failed ImageNotFound
  | _ =>
      match extract_text_from_receipt img with
      | Failed e => Failed e
      | Done text =>
          let amount := parse_amount text in
          let date := parse_date today text in
          let vendor := parse_vendor text in
          Done (mkReceiptInfo
                  amount date vendor (suggest_category vendor) text
                  (match amount with None => true | Some _ => false end
                   || String.eqb vendor "Unknown Vendor"))
      end
  end.

(** add_expense_from_receipt: [basename] is [os.path.basename(image_path)];
    the result comes with the tracker after the call. *)
Definition add_expense_from_receipt
           (str_amount : Q -> string) (today : string) (t : tracker)
           (img : image) (basename : string)
           (user_confirmation_callback : option (string -> string))
  : outcome (ReceiptInfo * Expense) * tracker :=
  match process_receipt today img with
  | Failed e => (Failed e, t)
  | Done receipt_info =>
      match info_amount receipt_info with
      | None => (Failed MissingAmount, t)
      | Some a =>
          let final_category :=
            match user_confirmation_callback with
            | Some ask => ask (suggested_category receipt_info)
            | None => suggested_category receipt_info
            end in
          match add_expense str_amount today t a final_category
                            (info_vendor receipt_info)
                            ("Receipt processed: " ++ basename)
                            (Some (info_date receipt_info)) with
          | (Ok expense, t') => (Done (receipt_info, expense), t')
          | (Err e, t') => (Failed (Rejected e), t')
          end
      end
  end.



(* ------------------------------------------------------------------ *)
(** *** The vendor passes its own test                                 *)
(* ------------------------------------------------------------------ *)

(** A class that does not tell a letter from its other case. *)
Definition case_blind (p : ascii -> bool) : Prop :=
  forall c, p (lower_char c) = p c /\ p (upper_char c) = p c.

Lemma is_digit_case_blind : case_blind is_digit.
Proof.
  intros c. destruct c as [b0 b1 b2 b3 b4 b5 b6 b7].
  destruct b0, b1, b2, b3, b4, b5, b6, b7; split; reflexivity.
Qed.

Lemma dash_case_blind : case_blind dash.
Proof.
  intros c. destruct c as [b0 b1 b2 b3 b4 b5 b6 b7].
  destruct b0, b1, b2, b3, b4, b5, b6, b7; split; reflexivity.
Qed.

Lemma title_from_length (b : bool) (s : string) :
  String.length (title_from b s) = String.length s.
Proof.
  revert b. induction s as [| c s IH]; intros b; simpl; [reflexivity |].
  now rewrite IH.
Qed.

Lemma prefix_fits_title (shape : list (ascii -> bool)) :
  Forall case_blind shape ->
  forall b s, prefix_fits shape (title_from b s) = prefix_fits shape s.
Proof.
  induction 1 as [| p shape Hp Hshape IH]; intros b s.
  - destruct s; reflexivity.
  - destruct s as [| c s]; simpl; [reflexivity |].
    rewrite IH. destruct (Hp c) as [Hl Hu].
    destruct b; [rewrite Hl | rewrite Hu]; reflexivity.
Qed.

Lemma phone_at_title (b : bool) (s : string) :
  phone_at (title_from b s) = phone_at s.
Proof.
  unfold phone_at. rewrite !prefix_fits_title; [reflexivity | |].
  - unfold phone_plain. simpl. repeat constructor; apply is_digit_case_blind.
  - unfold phone_dashed.
    repeat (constructor; [first [apply is_digit_case_blind | apply dash_case_blind] |]).
    constructor.
Qed.

Lemma has_phone_title (s : string) :
  forall b, has_phone (title_from b s) = has_phone s.
Proof.
  induction s as [| c s IH]; intros b.
  - reflexivity.
  - change (has_phone (title_from b (String c s)))
      with (phone_at (title_from b (String c s))
            || has_phone (title_from (is_alpha c) s)).
    rewrite phone_at_title, IH. reflexivity.
Qed.

Lemma qualifies_title (line : string) : qualifies (title line) = qualifies line.
Proof.
  unfold qualifies, title. rewrite title_from_length, has_phone_title.
  f_equal. f_equal. f_equal.
  destruct line as [| c line]; [reflexivity |]. simpl.
  apply is_digit_case_blind.
Qed.

(** What parse_vendor returns always passes the test parse_vendor applies
    to a line: it is longer than two characters, does not start with a
    digit and contains no phone-shaped token. The fallback "Unknown
    Vendor" does too. *)
Theorem parse_vendor_qualifies (text : string) :
  qualifies (parse_vendor text) = true
  /\ 2 < String.length (parse_vendor text)
  /\ starts_with_digit (parse_vendor text) = false
  /\ has_phone (parse_vendor text) = false.
Proof.
  assert (H : qualifies (parse_vendor text) = true).
  { unfold parse_vendor. rewrite vendor_in_find.
    destruct (find qualifies (map strip (firstn 5 (split_lines text))))
      as [line |] eqn:E; simpl.
    - apply find_some in E. rewrite qualifies_title. apply E.
    - reflexivity. }
  split; [exact H |].
  unfold qualifies in H.
  apply andb_prop in H. destruct H as [H Hphone].
  apply andb_prop in H. destruct H as [Hlen Hdigit].
  apply Nat.ltb_lt in Hlen.
  apply negb_true_iff in Hdigit. apply negb_true_iff in Hphone. auto.
Qed.

(* ------------------------------------------------------------------ *)
(** *** The receipt path as a whole                                    *)
(* ------------------------------------------------------------------ *)



(** add_expense_from_receipt touches nothing when it fails, whatever the
    image and the callback: the tracker after the call is the tracker
    before it. *)
Theorem add_expense_from_receipt_atomic
        (str_amount : Q -> string) (today : string) (t : tracker)
        (img : image) (basename : string)
        (callback : option (string -> string)) (e : receipt_error) :
  fst (add_expense_from_receipt str_amount today t img basename callback) = Failed e ->
  snd (add_expense_from_receipt str_amount today t img basename callback) = t.
Proof.
  unfold add_expense_from_receipt.
  destruct (process_receipt today img) as [info | e0]; [| reflexivity].
  destruct (info_amount info) as [a |]; [| reflexivity].
  rewrite add_expense_cases.
  destruct (Qlt_bool a 0); [reflexivity |].
  destruct (negb (mem _ EXPENSE_CATEGORIES)); [reflexivity |].
  destruct (strptime_ymd (info_date info)); simpl; [discriminate | reflexivity].
Qed.

Lemma add_expense_from_receipt_atomic_witness :
  snd (add_expense_from_receipt (fun _ => "5") "2024-06-01" three_expenses
         (ImageText "no numbers here") "receipt.png" None) = three_expenses.
Proof.
  apply (@add_expense_from_receipt_atomic (fun _ => "5") "2024-06-01" three_expenses
           (ImageText "no numbers here") "receipt.png" None MissingAmount).
  vm_compute. reflexivity.
Defined.

(* ================================================================== *)
(** ** Dates printed as YYYY-MM-DD                                     *)
(* ================================================================== *)

(** The character of a digit. *)
Definition dig (k : Z) : ascii := ascii_of_nat (48 + Z.to_nat k).

(** A number below 10000 in four digits, a number below 100 in two. *)
Definition four_digits (n : Z) : string :=
  String (dig (n / 1000))
    (String (dig (n / 100 mod 10))
       (String (dig (n / 10 mod 10)) (String (dig (n mod 10)) EmptyString))).
Definition two_digits (n : Z) : string :=
  String (dig (n / 10)) (String (dig (n mod 10)) EmptyString).

(** The integers [z], [z + 1], ..., [z + n - 1]. *)
Fixpoint zfrom (z : Z) (n : nat) : list Z :=
  match n with
  | 0 => []
  | S k => z :: zfrom (z + 1) k
  end.

Lemma zfrom_In (n : nat) :
  forall z x, (z <= x < z + Z.of_nat n)%Z -> In x (zfrom z n).
Proof.
  induction n as [| n IH]; intros z x H; [lia |].
  simpl. destruct (Z.eq_dec z x) as [E | E]; [now left |].
  right. apply IH. lia.
Qed.

Definition zpad4_ok (z : Z) : bool :=
  String.eqb (zpad 4 z) (four_digits z)
  && match int (four_digits z) with
     | Some v => (v =? z)%Z
     | None => false
     end.
Definition zpad2_ok (z : Z) : bool :=
  String.eqb (zpad 2 z) (two_digits z)
  && match int (two_digits z) with
     | Some v => (v =? z)%Z
     | None => false
     end.

Lemma zpad4_all : forallb zpad4_ok (zfrom 0 (Z.to_nat 10000)) = true.
Proof. vm_compute. reflexivity. Qed.

Lemma zpad2_all : forallb zpad2_ok (zfrom 0 (Z.to_nat 100)) = true.
Proof. vm_compute. reflexivity. Qed.

Lemma zpad4_digits (y : Z) :
  (0 <= y < 10000)%Z ->
  zpad 4 y = four_digits y /\ int (four_digits y) = Some y.
Proof.
  intros H.
  assert (Hin : In y (zfrom 0 (Z.to_nat 10000))) by (apply zfrom_In; lia).
  pose proof (proj1 (forallb_forall _ _) zpad4_all y Hin) as Hok.
  unfold zpad4_ok in Hok. apply andb_prop in Hok. destruct Hok as [H1 H2].
  apply String.eqb_eq in H1. split; [exact H1 |].
  destruct (int (four_digits y)) as [v |]; [| discriminate].
  apply Z.eqb_eq in H2. now subst.
Qed.

Lemma zpad2_digits (m : Z) :
  (0 <= m < 100)%Z ->
  zpad 2 m = two_digits m /\ int (two_digits m) = Some m.
Proof.
  intros H.
  assert (Hin : In m (zfrom 0 (Z.to_nat 100))) by (apply zfrom_In; lia).
  pose proof (proj1 (forallb_forall _ _) zpad2_all m Hin) as Hok.
  unfold zpad2_ok in Hok. apply andb_prop in Hok. destruct Hok as [H1 H2].
  apply String.eqb_eq in H1. split; [exact H1 |].
  destruct (int (two_digits m)) as [v |]; [| discriminate].
  apply Z.eqb_eq in H2. now subst.
Qed.

Lemma digit_cases (k : Z) :
  (0 <= k < 10)%Z ->
  k = 0%Z \/ k = 1%Z \/ k = 2%Z \/ k = 3%Z \/ k = 4%Z \/ k = 5%Z \/ k = 6%Z
  \/ k = 7%Z \/ k = 8%Z \/ k = 9%Z.
Proof. lia. Qed.

Lemma dig_facts (k : Z) :
  (0 <= k < 10)%Z -> is_digit (dig k) = true /\ code (dig k) = 48 + Z.to_nat k.
Proof.
  intros H. destruct (digit_cases H) as [E | [E | [E | [E | [E | [E | [E | [E | [E | E]]]]]]]]];
    subst k; split; reflexivity.
Qed.

Lemma strftime_digits (dt : Datetime) :
  valid_date dt ->
  strftime dt = four_digits (dt_year dt) ++ "-" ++ two_digits (dt_month dt)
                ++ "-" ++ two_digits (dt_day dt).
Proof.
  intros [Hy [Hm Hd]]. unfold strftime.
  assert (Hd' : (dt_day dt <= 31)%Z).
  { destruct Hd as [_ Hd]. unfold days_in_month in Hd.
    destruct (dt_month dt =? 2)%Z; [destruct (is_leap (dt_year dt)); lia |].
    destruct ((dt_month dt =? 4) || (dt_month dt =? 6) || (dt_month dt =? 9)
              || (dt_month dt =? 11))%Z; lia. }
  rewrite (proj1 (@zpad4_digits (dt_year dt) ltac:(lia))).
  rewrite (proj1 (@zpad2_digits (dt_month dt) ltac:(lia))).
  rewrite (proj1 (@zpad2_digits (dt_day dt) ltac:(lia))).
  reflexivity.
Qed.






Lemma valid_date_day (dt : Datetime) : valid_date dt -> (dt_day dt <= 31)%Z.
Proof.
  intros [_ [_ [_ Hd]]]. unfold days_in_month in Hd.
  destruct (dt_month dt =? 2)%Z; [destruct (is_leap (dt_year dt)); lia |].
  destruct ((dt_month dt =? 4) || (dt_month dt =? 6) || (dt_month dt =? 9)
            || (dt_month dt =? 11))%Z; lia.
Qed.



(* ------------------------------------------------------------------ *)
(** *** The order of printed dates                                     *)
(* ------------------------------------------------------------------ *)

(** Decide every comparison in the goal, then close the case by
    computation or by arithmetic. *)
Ltac decide_comparisons :=
  repeat (match goal with
          | |- context [Nat.ltb ?x ?y] => destruct (Nat.ltb_spec x y)
          | |- context [Nat.eqb ?x ?y] => destruct (Nat.eqb_spec x y)
          | |- context [Z.ltb ?x ?y] => destruct (Z.ltb_spec x y)
          | |- context [Z.leb ?x ?y] => destruct (Z.leb_spec x y)
          | |- context [Z.eqb ?x ?y] => destruct (Z.eqb_spec x y)
          end; cbn [orb andb negb]);
  try reflexivity; exfalso; Z.div_mod_to_equations; lia.

Lemma str_ltb_four (n1 n2 : Z) (r s : string) :
  (0 <= n1 < 10000)%Z -> (0 <= n2 < 10000)%Z ->
  str_ltb (four_digits n1 ++ r) (four_digits n2 ++ s)
  = ((n1 <? n2)%Z || ((n1 =? n2)%Z && str_ltb r s)).
Proof.
  intros H1 H2. unfold four_digits. cbn [String.append str_ltb].
  assert (D1 : (0 <= n1 / 1000 < 10 /\ 0 <= n1 / 100 mod 10 < 10
                /\ 0 <= n1 / 10 mod 10 < 10 /\ 0 <= n1 mod 10 < 10)%Z)
    by (Z.div_mod_to_equations; lia).
  assert (D2 : (0 <= n2 / 1000 < 10 /\ 0 <= n2 / 100 mod 10 < 10
                /\ 0 <= n2 / 10 mod 10 < 10 /\ 0 <= n2 mod 10 < 10)%Z)
    by (Z.div_mod_to_equations; lia).
  destruct D1 as [A3 [A2 [A1 A0]]]. destruct D2 as [B3 [B2 [B1 B0]]].
  rewrite (proj2 (dig_facts A3)), (proj2 (dig_facts A2)),
    (proj2 (dig_facts A1)), (proj2 (dig_facts A0)),
    (proj2 (dig_facts B3)), (proj2 (dig_facts B2)),
    (proj2 (dig_facts B1)), (proj2 (dig_facts B0)).
  decide_comparisons.
Qed.

Lemma str_ltb_two (n1 n2 : Z) (r s : string) :
  (0 <= n1 < 100)%Z -> (0 <= n2 < 100)%Z ->
  str_ltb (two_digits n1 ++ r) (two_digits n2 ++ s)
  = ((n1 <? n2)%Z || ((n1 =? n2)%Z && str_ltb r s)).
Proof.
  intros H1 H2. unfold two_digits. cbn [String.append str_ltb].
  assert (D1 : (0 <= n1 / 10 < 10 /\ 0 <= n1 mod 10 < 10)%Z)
    by (Z.div_mod_to_equations; lia).
  assert (D2 : (0 <= n2 / 10 < 10 /\ 0 <= n2 mod 10 < 10)%Z)
    by (Z.div_mod_to_equations; lia).
  destruct D1 as [A1 A0]. destruct D2 as [B1 B0].
  rewrite (proj2 (dig_facts A1)), (proj2 (dig_facts A0)),
    (proj2 (dig_facts B1)), (proj2 (dig_facts B0)).
  decide_comparisons.
Qed.

Lemma str_ltb_same_head (c : ascii) (r s : string) :
  str_ltb (String c r) (String c s) = str_ltb r s.
Proof.
  simpl. now rewrite Nat.ltb_irrefl, Nat.eqb_refl.
Qed.

Lemma append_empty (s : string) : s ++ "" = s.
Proof. induction s as [| c s IH]; simpl; [reflexivity | now rewrite IH]. Qed.

(** On printed dates the order of strings is the order of days. *)
Lemma strftime_order (a b : Datetime) :
  valid_date a -> valid_date b ->
  str_ltb (strftime a) (strftime b) = negb (dt_leb b a).
Proof.
  intros Ha Hb.
  pose proof (valid_date_day Ha) as Hda. pose proof (valid_date_day Hb) as Hdb.
  rewrite (strftime_digits Ha), (strftime_digits Hb).
  destruct Ha as [Hya [Hma Hda']]. destruct Hb as [Hyb [Hmb Hdb']].
  rewrite str_ltb_four by lia.
  cbn [String.append]. rewrite str_ltb_same_head.
  rewrite str_ltb_two by lia.
  cbn [String.append]. rewrite str_ltb_same_head.
  rewrite <- (append_empty (two_digits (dt_day a))),
          <- (append_empty (two_digits (dt_day b))).
  rewrite str_ltb_two by lia.
  cbn [str_ltb]. unfold dt_leb.
  decide_comparisons.
Qed.

(** A date string in the form [strftime] prints: a day of the calendar,
    zero-padded as YYYY-MM-DD. *)
Definition canonical (s : string) : Prop :=
  exists dt, valid_date dt /\ s = strftime dt.

(** The date range of the summary is found by comparing strings. When
    every stored date is in the zero-padded form YYYY-MM-DD, that is the
    range of the days: its start is the earliest day of the store and its
    end the latest. *)
Theorem date_range_chronological (t : tracker) :
  expenses t <> [] ->
  Forall (fun e => canonical (date e)) (expenses t) ->
  exists lo hi,
    valid_date lo /\ valid_date hi
    /\ date_range (get_expense_summary t) = (Some (strftime lo), Some (strftime hi))
    /\ forall e dt,
         In e (expenses t) -> valid_date dt -> date e = strftime dt ->
         dt_leb lo dt = true /\ dt_leb dt hi = true.
Proof.
  intros Hne Hall. unfold get_expense_summary.
  destruct (expenses t) as [| e0 l] eqn:E; [congruence |].
  cbn [map date_range].
  destruct (min_str_spec (map date l) (date e0)) as [Hlo Hmin].
  destruct (max_str_spec (map date l) (date e0)) as [Hhi Hmax].
  assert (Hcan : forall s, In s (date e0 :: map date l) -> canonical s).
  { intros s Hs. change (date e0 :: map date l) with (map date (e0 :: l)) in Hs.
    apply in_map_iff in Hs. destruct Hs as [e [He Hin]]. subst s.
    exact (proj1 (Forall_forall _ _) Hall e Hin). }
  destruct (Hcan _ Hlo) as [lo [Hvlo Elo]].
  destruct (Hcan _ Hhi) as [hi [Hvhi Ehi]].
  exists lo, hi. split; [exact Hvlo |]. split; [exact Hvhi |].
  split; [now rewrite Elo, Ehi |].
  intros e dt Hin Hv Hdate.
  assert (Hs : In (date e) (date e0 :: map date l))
    by (change (date e0 :: map date l) with (map date (e0 :: l)); now apply in_map).
  pose proof (Hmin _ Hs) as H1. pose proof (Hmax _ Hs) as H2.
  rewrite Hdate, Elo in H1. rewrite Hdate, Ehi in H2.
  rewrite (strftime_order Hv Hvlo) in H1.
  rewrite (strftime_order Hvhi Hv) in H2.
  apply negb_false_iff in H1. apply negb_false_iff in H2. auto.
Qed.

Lemma date_range_chronological_witness :
  exists lo hi,
    valid_date lo /\ valid_date hi
    /\ date_range (get_expense_summary three_expenses)
       = (Some (strftime lo), Some (strftime hi))
    /\ forall e dt,
         In e (expenses three_expenses) -> valid_date dt -> date e = strftime dt ->
         dt_leb lo dt = true /\ dt_leb dt hi = true.
Proof.
  apply (@date_range_chronological three_expenses).
  - discriminate.
  - unfold three_expenses. simpl.
    apply Forall_cons;
      [exists (mkDatetime 2024 1 15); split;
         [repeat split; vm_compute; discriminate | reflexivity] |].
    apply Forall_cons;
      [exists (mkDatetime 2024 1 16); split;
         [repeat split; vm_compute; discriminate | reflexivity] |].
    apply Forall_cons;
      [exists (mkDatetime 2024 1 17); split;
         [repeat split; vm_compute; discriminate | reflexivity] |].
    apply Forall_nil.
Defined.

(** The zero padding matters: add_expense accepts 2024-9-01, and with it
    the summary's start is the later day and its end the earlier one. *)
Lemma date_range_unpadded :
  strptime_ymd "2024-9-01" = Some (mkDatetime 2024 9 1)
  /\ date_range
       (get_expense_summary
          (mkTracker None 0 "csv"
             [mkExpense "2024-9-01" (5 # 1) "Gas" "Shell" "";
              mkExpense "2024-10-01" (5 # 1) "Gas" "Shell" ""]))
     = (Some "2024-10-01", Some "2024-9-01").
Proof.
  split; vm_compute; reflexivity.
Qed.
